(** * ARIA-tools-docs: the tutorial notebooks and what they do

    The repository holds Jupyter notebooks.  Their code cells are short
    Python and shell snippets around GDAL, NumPy, matplotlib and the
    command-line tools [ariaDownload.py] and [ariaPlot.py].

    The development has two layers.

    - [Py]: the abstract syntax of the code cells, the cells themselves
      (modules [AriaPlotNb], [GdalBasicsNb], [AriaDownloadNb]) and the
      static analyses the properties are stated with (error handling,
      call provenance, handle release, command lines, path expressions,
      free names, the cells' own computation, state of the process).
    - [Sem]: an executable model of the two pieces of code that work on
      raster values: the function [plot_layer] and the masking cell of
      the GDAL notebook, over NumPy masked arrays. *)

From Stdlib Require Import String Ascii List Bool Arith ZArith Lia.
From Stdlib Require Import Permutation.
Import ListNotations.
Open Scope string_scope.
Open Scope list_scope.
Set Warnings "-register-all".

(* ===================================================================== *)
(** ** Abstract syntax of the code cells *)
(* ===================================================================== *)

Module Py.

(** Python expressions, as far as the notebooks use them.  Numeric
    literals keep their source text. *)
Inductive expr : Type :=
| EName (x : string)
| EStr (s : string)
| ENum (n : string)
| ENone
| EAttr (e : expr) (a : string)
| ECall (f : expr) (args : list expr) (kwargs : list (string * expr))
| EBinOp (op : string) (l r : expr)
| ENot (e : expr)
| EIndex (e i : expr)
| EList (es : list expr)
| ETuple (es : list expr)
| EDict (kvs : list (string * expr))
| EIfExp (thn cnd els : expr)
| ELambda (params : list string) (body : expr).

(** A word of a shell line after the shell has removed the quotes:
    literal text, or an IPython [{name}] interpolation. *)
Inductive word : Type :=
| Lit (s : string)
| Interp (x : string).

(** Statements.  [SShell] is an IPython [!cmd] line: program and
    argument words.  [SImport] lists (module, bound name) pairs. *)
Inductive stmt : Type :=
| SImport (bindings : list (string * string))
| SAssign (targets : list string) (e : expr)
| SExpr (e : expr)
| SShell (prog : string) (args : list word)
| SIf (c : expr) (thn els : list stmt)
| SFor (targets : list string) (iter : expr) (body : list stmt)
| SWhile (c : expr) (body : list stmt)
| STry (body handler : list stmt)
| SRaise (e : expr)
| SDef (name : string) (params : list (string * option expr))
       (kwarg : option string) (body : list stmt).

(** A code cell, with the line of the notebook file its source starts at. *)
Record cell : Type := Cell { cell_line : nat; code : list stmt }.

Record notebook : Type := Notebook { nb_name : string; cells : list cell }.

(** *** Abbreviations used when writing cells down *)

Definition call (f : expr) (args : list expr) : expr := ECall f args [].
Definition qual (m a : string) : expr := EAttr (EName m) a.
Definition qual2 (m a b : string) : expr := EAttr (EAttr (EName m) a) b.
Definition meth (o : expr) (m : string) (args : list expr) : expr :=
  ECall (EAttr o m) args [].
Definition methk (o : expr) (m : string) (args : list expr)
  (kw : list (string * expr)) : expr := ECall (EAttr o m) args kw.
Definition py_print (args : list expr) : stmt := SExpr (call (EName "print") args).
Definition set1 (x : string) (e : expr) : stmt := SAssign [x] e.
Definition lits (ws : list string) : list word := map Lit ws.

(** *** Traversals *)

(** Every statement of a block, nested ones included, in source order. *)
Fixpoint flatten (s : stmt) : list stmt :=
  s ::
  match s with
  | SIf _ t e => flat_map flatten t ++ flat_map flatten e
  | SFor _ _ b => flat_map flatten b
  | SWhile _ b => flat_map flatten b
  | STry b h => flat_map flatten b ++ flat_map flatten h
  | SDef _ _ _ b => flat_map flatten b
  | _ => []
  end.

Definition flatten_block (b : list stmt) : list stmt := flat_map flatten b.

(** The expressions a statement holds itself (not those of nested
    statements). *)
Definition own_exprs (s : stmt) : list expr :=
  match s with
  | SAssign _ e | SExpr e | SRaise e => [e]
  | SIf c _ _ | SWhile c _ => [c]
  | SFor _ it _ => [it]
  | SDef _ ps _ _ =>
      flat_map (fun p => match snd p with Some d => [d] | None => [] end) ps
  | _ => []
  end.

(** Every subexpression, the expression itself first. *)
Fixpoint subexprs (e : expr) : list expr :=
  e ::
  match e with
  | EAttr a _ | ENot a => subexprs a
  | ECall f args kw =>
      subexprs f ++ flat_map subexprs args
      ++ flat_map (fun p => subexprs (snd p)) kw
  | EBinOp _ l r | EIndex l r => subexprs l ++ subexprs r
  | EList es | ETuple es => flat_map subexprs es
  | EDict kvs => flat_map (fun p => subexprs (snd p)) kvs
  | EIfExp a b c => subexprs a ++ subexprs b ++ subexprs c
  | ELambda _ b => subexprs b
  | _ => []
  end.

(** All expressions of a block, at any depth. *)
Definition block_exprs (b : list stmt) : list expr :=
  flat_map subexprs (flat_map own_exprs (flatten_block b)).

(** The name an expression hangs off: [gdal] for [gdal.Open(p)],
    [unwPhase] for [unwPhase.GetRasterBand(1).GetStatistics(0,1)]. *)
Fixpoint root (e : expr) : option string :=
  match e with
  | EName x => Some x
  | EAttr a _ | EIndex a _ => root a
  | ECall f _ _ => root f
  | _ => None
  end.

(** Dotted path of a callee: [["gdal"; "Open"]]. *)
Fixpoint dotted (e : expr) : option (list string) :=
  match e with
  | EName x => Some [x]
  | EAttr a n => option_map (fun p => p ++ [n]) (dotted a)
  | _ => None
  end.

Definition str_in (x : string) (l : list string) : bool :=
  existsb (String.eqb x) l.

Definition path_eqb (p q : list string) : bool :=
  if list_eq_dec string_dec p q then true else false.

(** [is_call_to p e]: [e] is a call of the function with dotted path [p]. *)
Definition is_call_to (p : list string) (e : expr) : bool :=
  match e with
  | ECall f _ _ =>
      match dotted f with Some q => path_eqb p q | None => false end
  | _ => false
  end.

End Py.

Import Py.

(* ===================================================================== *)
(** ** JupyterDocs/ariaPlot/ariaPlot_tutorial.ipynb *)
(* ===================================================================== *)

Module AriaPlotNb.

Local Abbreviation N := EName.
Local Abbreviation T := EStr.
Local Abbreviation I := ENum.

(** The choice of colour bounds and colormap by layer type, the
    [if]/[elif] chain of [plot_layer]. *)
Definition bounds (vmin vmax : expr) : list stmt :=
  [set1 "vmin" vmin; set1 "vmax" vmax].

Definition layer_options : stmt :=
  SIf (meth (N "lay_type") "endswith" [T "amplitude"])
    (bounds ENone (I "2000"))
  [SIf (meth (N "lay_type") "endswith" [T "coherence"])
    (bounds (I "0") (I "1"))
  [SIf (meth (N "lay_type") "endswith" [T "incidenceAngle"])
    (bounds ENone ENone)
  [SIf (meth (N "lay_type") "startswith" [T "water"])
    (bounds ENone ENone)
  [SIf (meth (N "lay_type") "startswith" [T "defo"])
    (bounds ENone ENone ++ [set1 "cmap" (qual2 "plt" "cm" "coolwarm")])
  [SIf (EBinOp "or" (meth (N "lay_type") "startswith" [T "terr"])
                    (meth (N "lay_type") "startswith" [T "topo"]))
    (bounds ENone ENone ++ [set1 "cmap" (qual2 "plt" "cm" "terrain")])
  [SIf (EBinOp "==" (N "lay_type") (T "ENU"))
    (bounds ENone ENone
       ++ [set1 "title" (EList [T "East"; T "North"; T "Up"]);
           SExpr (methk (N "fig") "subplots_adjust" [] [("wspace", I "0.5")])])
    (bounds ENone ENone ++ [set1 "cmap" (qual2 "plt" "cm" "coolwarm")])
  ]]]]]].

(** The band loop: read every band and mask it. *)
Definition band_loop : stmt :=
  SFor ["band"] (call (N "range") [N "n_bands"])
    [ set1 "raster"
        (meth (N "ds") "GetRasterBand" [EBinOp "+" (N "band") (I "1")]);
      set1 "arr" (meth (N "raster") "ReadAsArray" []);
      STry
        [ set1 "NoData" (meth (N "raster") "GetNoDataValue" []);
          set1 "arr"
            (call (qual2 "np" "ma" "masked_where")
               [EBinOp "|" (EBinOp ">" (N "arr") (I "1e20"))
                           (EBinOp "==" (N "arr") (N "NoData"));
                N "arr"]) ]
        [ py_print [T "Could not find a no-data value..."];
          set1 "arr"
            (call (qual2 "np" "ma" "masked_where")
               [EBinOp ">" (N "arr") (I "1e20"); N "arr"]) ];
      SExpr (meth (N "lst_arrs") "append" [N "arr"]) ].

(** The plotting loop over the axes. *)
Definition plot_loop : stmt :=
  SFor ["i"; "ax"] (call (N "enumerate") [N "axe"])
    [ set1 "im"
        (methk (N "ax") "imshow" [EIndex (N "lst_arrs") (N "i")]
           [("cmap", N "cmap"); ("vmin", N "vmin"); ("vmax", N "vmax");
            ("extent", N "extent")]);
      set1 "divider" (call (N "make_axes_locatable") [N "ax"]);
      set1 "cax"
        (methk (N "divider") "append_axes" [T "right"]
           [("size", T "5%"); ("pad", I "0.25")]);
      SIf (EBinOp "==" (N "lay_type") (T "ENU"))
        [SExpr (methk (N "fig") "colorbar" [N "im"]
                  [("cax", N "cax");
                   ("format",
                    call (N "FuncFormatter")
                      [ELambda ["x"; "y"]
                         (meth (T "{:.3f}") "format" [N "x"])])])]
        [SExpr (methk (N "fig") "colorbar" [N "im"] [("cax", N "cax")])];
      SExpr (methk (N "ax") "set_title" [EIndex (N "title") (N "i")]
               [("fontsize", I "15")]);
      SExpr (meth (N "ax") "grid" [N "False"]) ].

(** [def plot_layer(path_layer, lay_type=None, cmap=None, **kwargs)],
    lines 72-176. *)
Definition plot_layer_body : list stmt :=
  [ SExpr (T "path_layers is a string to the GDAL compatible dataset to be plotted");
    SIf (ENot (N "lay_type"))
      [set1 "lay_type" (call (qual2 "os" "path" "dirname") [N "path_layer"])]
      [];
    set1 "title"
      (EList [call (qual2 "os" "path" "basename") [N "lay_type"]]);
    set1 "ds"
      (call (qual "gdal" "Open") [N "path_layer"; qual "gdal" "GA_ReadOnly"]);
    set1 "trans" (meth (N "ds") "GetGeoTransform" []);
    set1 "extent"
      (EList
         [ EIndex (N "trans") (I "0");
           EBinOp "+" (EIndex (N "trans") (I "0"))
             (EBinOp "*" (EAttr (N "ds") "RasterXSize")
                         (EIndex (N "trans") (I "1")));
           EBinOp "+" (EIndex (N "trans") (I "3"))
             (EBinOp "*" (EAttr (N "ds") "RasterYSize")
                         (EIndex (N "trans") (I "5")));
           EIndex (N "trans") (I "3") ]);
    set1 "n_bands" (EAttr (N "ds") "RasterCount");
    set1 "lst_arrs" (EList []);
    band_loop;
    set1 "ds" ENone;
    SIf (EBinOp "<" (N "n_bands") (I "4"))
      [set1 "nrows" (I "1"); set1 "ncols" (N "n_bands")]
      [SRaise (call (N "Exception") [T "Number of bands currently unsupported"])];
    SAssign ["fig"; "axes"]
      (methk (N "plt") "subplots" []
         [("figsize", ETuple [I "12"; I "9"]); ("ncols", N "ncols");
          ("nrows", N "nrows"); ("sharex", T "col"); ("sharey", T "row")]);
    set1 "axes"
      (EIfExp (N "axes")
         (call (N "isinstance") [N "axes"; qual "np" "ndarray"])
         (call (qual "np" "array") [N "axes"]));
    set1 "axe" (meth (N "axes") "ravel" []);
    set1 "cmap" (qual2 "plt" "cm" "Greys_r");
    SExpr (meth (N "cmap") "set_under" [T "black"]);
    layer_options;
    plot_loop;
    SExpr (methk (EIndex (N "axe") (I "0")) "set_ylabel" [T "latitude"]
             [("labelpad", I "15"); ("fontsize", I "15")]);
    SExpr (methk
             (EIndex (N "axe")
                (call (N "int")
                   [call (qual "np" "floor")
                      [EBinOp "/" (N "n_bands") (I "2")]]))
             "set_xlabel" [T "longitude"]
             [("labelpad", I "15"); ("fontsize", I "15")]) ].

Definition plot_layer_def : stmt :=
  SDef "plot_layer"
    [("path_layer", None); ("lay_type", Some ENone); ("cmap", Some ENone)]
    (Some "kwargs") plot_layer_body.

(** The code cells, by the line their source starts at. *)
Definition setup_cell : cell :=
  Cell 63
    [ SImport [("os", "os")];
      SImport [("osgeo", "gdal"); ("osgeo", "ogr")];
      SImport [("numpy", "np")];
      SImport [("matplotlib.pyplot", "plt")];
      SImport [("matplotlib.ticker", "FuncFormatter");
               ("matplotlib.ticker", "FormatStrFormatter");
               ("matplotlib.ticker", "StrMethodFormatter")];
      SImport [("mpl_toolkits.axes_grid1", "make_axes_locatable")];
      plot_layer_def ].

Definition download_cell : cell :=
  Cell 273
    [SShell "ariaDownload.py"
       (lits ["-t"; "42"; "-e"; "20160101"; "--bbox";
              "37.25 38.1 -122.6 -121.75"])].

Definition ls_products_cell : cell := Cell 293 [SShell "ls" (lits ["products"])].

Definition help_cell : cell := Cell 334 [SShell "ariaPlot.py" (lits ["-h"])].

Definition quality_cell : cell :=
  Cell 491
    [SShell "ariaPlot.py"
       (lits ["-f"; "products/*.nc"; "--plotcoh"; "--plotbperpcoh";
              "--makeavgoh"])].

Definition ls_figures_cell : cell := Cell 511 [SShell "ls" (lits ["figures"])].

Definition avgcoh_cell : cell :=
  Cell 598
    [SExpr (call (N "plot_layer")
              [T "figures/avgcoherence.vrt"; T "coherence"])].

Definition tracks_cell : cell :=
  Cell 628
    [SShell "ariaPlot.py" (lits ["-f"; "products/*.nc"; "-plottracks"])].

Definition nb : notebook :=
  Notebook "ariaPlot_tutorial"
    [ setup_cell; download_cell; ls_products_cell; help_cell; quality_cell;
      ls_figures_cell; avgcoh_cell; tracks_cell ].

End AriaPlotNb.

(* ===================================================================== *)
(** ** JupyterDocs/GDAL_basics/GDAL_basics.ipynb, lines 1-979 *)
(* ===================================================================== *)

Module GdalBasicsNb.

Local Abbreviation N := EName.
Local Abbreviation T := EStr.
Local Abbreviation I := ENum.

(** The newline character of ['\n']. *)
Definition nl : string := String (ascii_of_nat 10) EmptyString.

(** Line 58: imports, directories, the product file. *)
Definition setup_cell : cell :=
  Cell 58
    [ SImport [("os", "os"); ("sys", "sys")];
      SImport [("osgeo", "gdal"); ("osgeo", "osr")];
      SImport [("numpy", "np")];
      SImport [("matplotlib.pyplot", "plt")];
      set1 "home_dir" (call (qual "os" "getcwd") []);
      set1 "tutorial_home_dir"
        (call (qual2 "os" "path" "abspath")
           [call (qual2 "os" "path" "join") [N "home_dir"; T EmptyString]]);
      set1 "data_dir"
        (call (qual2 "os" "path" "join") [N "tutorial_home_dir"; T "products"]);
      py_print [T "home directory: "; N "tutorial_home_dir"];
      py_print [T EmptyString];
      SExpr (call (qual "gdal" "UseExceptions") []);
      set1 "fileName"
        (call (qual2 "os" "path" "join")
           [N "data_dir";
            T "S1-GUNW-A-R-077-tops-20190222_20190210-231605-42666N_40796N-PP-d75b-v2_0_1.nc"]);
      SIf (ENot (call (qual2 "os" "path" "exists") [N "tutorial_home_dir"]))
        [SExpr (call (qual "os" "makedirs") [N "tutorial_home_dir"])] [];
      SIf (ENot (call (qual2 "os" "path" "exists") [N "data_dir"]))
        [SExpr (call (qual "os" "makedirs") [N "data_dir"])] [];
      SExpr (call (qual "os" "chdir") [N "tutorial_home_dir"]) ].

Definition download_cell : cell :=
  Cell 167
    [ SExpr (call (qual "os" "chdir") [N "tutorial_home_dir"]);
      SShell "ariaDownload.py"
        [Lit "--bbox"; Lit "41.5 42 -82 -78"; Lit "--ifg";
         Lit "20190222_20190210"; Lit "-v"; Lit "-w"; Interp "data_dir"] ].

Definition open_cell : cell :=
  Cell 217 [set1 "ds" (call (qual "gdal" "Open") [N "fileName"])].

Definition info_cell : cell :=
  Cell 239
    [ set1 "dataInfo" (call (qual "gdal" "Info") [N "ds"]);
      py_print [N "dataInfo"];
      set1 "ds" ENone ].

Definition gdalinfo_cell : cell :=
  Cell 275
    [SShell "gdalinfo"
       (lits ["./products/S1-GUNW-A-R-077-tops-20190222_20190210-231605-42666N_40796N-PP-d75b-v2_0_1.nc"])].

(** ["NETCDF:"+fileName+":/science/grids/data/unwrappedPhase"] *)
Definition unw_path : expr :=
  EBinOp "+" (EBinOp "+" (T "NETCDF:") (N "fileName"))
             (T ":/science/grids/data/unwrappedPhase").

Definition sub_open_cell : cell :=
  Cell 357
    [ set1 "unwPhase" (call (qual "gdal" "Open") [unw_path]);
      set1 "unwPhaseInfo" (call (qual "gdal" "Info") [N "unwPhase"]);
      py_print [N "unwPhaseInfo"] ].

Definition stats_cell : cell :=
  Cell 392
    [ set1 "stats"
        (meth (meth (N "unwPhase") "GetRasterBand" [I "1"])
           "GetStatistics" [I "0"; I "1"]);
      py_print [T "Min: "; EIndex (N "stats") (I "0")];
      py_print [T "Max: "; EIndex (N "stats") (I "1")];
      py_print [T "Mean: "; EIndex (N "stats") (I "2")];
      py_print [T "Standard Dev.: "; EIndex (N "stats") (I "3")];
      set1 "unwPhase" ENone ].

Definition gdalinfo_sub_cell : cell :=
  Cell 440
    [SShell "gdalinfo"
       (lits ["NETCDF:./products/S1-GUNW-A-R-077-tops-20190222_20190210-231605-42666N_40796N-PP-d75b-v2_0_1.nc:/science/grids/data/unwrappedPhase"])].

Definition gdalinfo_stats_cell : cell :=
  Cell 471
    [SShell "gdalinfo"
       (lits ["NETCDF:./products/S1-GUNW-A-R-077-tops-20190222_20190210-231605-42666N_40796N-PP-d75b-v2_0_1.nc:/science/grids/data/unwrappedPhase";
              "-stats"])].

Definition srsinfo_cell : cell :=
  Cell 501 [SShell "gdalsrsinfo" (lits ["EPSG:4326"])].

Definition load_cell : cell :=
  Cell 563
    [ set1 "unwPhase" (call (qual "gdal" "Open") [unw_path]);
      set1 "unwData"
        (meth (meth (N "unwPhase") "GetRasterBand" [I "1"]) "ReadAsArray" []);
      py_print [T "Succesfully loaded the 'unwrappedPhase' sub-dataset into a Numpy array with size:"];
      py_print [EAttr (N "unwData") "shape"] ].

Definition round7 (x : string) : stmt :=
  set1 x (call (qual "np" "round") [N x; I "7"]).

Definition corner_cell : cell :=
  Cell 591
    [ set1 "projection" (call (qual "osr" "SpatialReference") []);
      SExpr (meth (N "projection") "ImportFromWkt"
               [meth (N "unwPhase") "GetProjectionRef" []]);
      SAssign ["ulLon"; "Lonres"; "Lonskew"; "ulLat"; "Latskew"; "Latres"]
        (meth (N "unwPhase") "GetGeoTransform" []);
      set1 "lrLon"
        (EBinOp "+" (N "ulLon")
           (EBinOp "*" (EAttr (N "unwPhase") "RasterXSize") (N "Lonres")));
      set1 "lrLat"
        (EBinOp "+" (N "ulLat")
           (EBinOp "*" (EAttr (N "unwPhase") "RasterYSize") (N "Latres")));
      round7 "ulLon"; round7 "ulLat"; round7 "lrLon"; round7 "lrLat";
      SExpr (ECall (N "print")
               [ T (nl ++ "Corner Coordinates calculated in this cell: ");
                 T "Upper Left: "; ETuple [N "ulLon"; N "ulLat"];
                 T "Lower Left: "; ETuple [N "ulLon"; N "lrLat"];
                 T "Upper Right: "; ETuple [N "lrLon"; N "ulLat"];
                 T "Lower Right: "; ETuple [N "lrLon"; N "lrLat"] ]
               [("sep", T nl)]) ].

(** [np.ma.masked_array(data, mask=m, fill_value=999999)] *)
Definition masked_array_call (data m : expr) : expr :=
  ECall (qual2 "np" "ma" "masked_array") [data]
    [("mask", m); ("fill_value", I "999999")].

Definition masking_cell : cell :=
  Cell 651
    [ set1 "NDV"
        (meth (meth (N "unwPhase") "GetRasterBand" [I "1"])
           "GetNoDataValue" []);
      set1 "unwPhase" ENone;
      set1 "connComp"
        (call (qual "gdal" "Open")
           [EBinOp "+" (EBinOp "+" (T "NETCDF:") (N "fileName"))
                       (T ":/science/grids/data/connectedComponents")]);
      set1 "connCompData"
        (meth (meth (N "connComp") "GetRasterBand" [I "1"]) "ReadAsArray" []);
      set1 "connComp" ENone;
      set1 "unwDataMasked"
        (masked_array_call (N "unwData")
           (EBinOp "==" (N "unwData") (N "NDV")));
      set1 "unwDataMasked"
        (masked_array_call (N "unwDataMasked")
           (EBinOp "==" (N "connCompData") (I "0"))) ].

Definition plate_carree : expr := call (qual "ccrs" "PlateCarree") [].

Definition map_cell : cell :=
  Cell 686
    [ SImport [("cartopy.io.img_tiles", "cimgt")];
      SImport [("cartopy.feature", "cfeature")];
      SImport [("cartopy.crs", "ccrs")];
      SImport [("cartopy.mpl.ticker", "LongitudeFormatter");
               ("cartopy.mpl.ticker", "LatitudeFormatter")];
      set1 "basemap" (call (qual "cimgt" "Stamen") [T "terrain-background"]);
      set1 "WESN" (EList [N "ulLon"; N "lrLon"; N "lrLat"; N "ulLat"]);
      SAssign ["fig"; "axes"]
        (methk (N "plt") "subplots" []
           [("figsize", ETuple [I "20"; I "8"]);
            ("subplot_kw", EDict [("projection", EAttr (N "basemap") "crs")])]);
      SExpr (meth (N "axes") "set_extent"
               [N "WESN"; call (qual "ccrs" "Geodetic") []]);
      SExpr (meth (N "axes") "add_image" [N "basemap"; I "10"]);
      SExpr (meth (N "axes") "coastlines" []);
      set1 "im"
        (methk (N "axes") "imshow" [N "unwDataMasked"]
           [("cmap", T "viridis"); ("vmin", I "-12"); ("vmax", I "0");
            ("zorder", I "1"); ("extent", N "WESN"); ("origin", T "upper");
            ("transform", plate_carree)]);
      set1 "cbar_ax"
        (meth (N "fig") "add_axes"
           [EList [I "0.730"; I "0.125"; I "0.025"; I "0.755"]]);
      SExpr (methk (N "fig") "colorbar" [N "im"; N "cbar_ax"]
               [("label", T "Radians"); ("spacing", T "proportional")]);
      SExpr (methk (N "axes") "set_xticks"
               [call (qual "np" "arange")
                  [EIndex (N "WESN") (I "0"); EIndex (N "WESN") (I "1"); I "1"]]
               [("crs", plate_carree)]);
      SExpr (methk (N "axes") "set_yticks"
               [call (qual "np" "arange")
                  [EIndex (N "WESN") (I "2"); EIndex (N "WESN") (I "3"); I "1"]]
               [("crs", plate_carree)]);
      SExpr (methk (N "axes") "grid" []
               [("linewidth", I "1.5"); ("color", T "black");
                ("alpha", I "0.35"); ("linestyle", T "--"); ("zorder", I "2")]);
      set1 "lon_formatter"
        (ECall (N "LongitudeFormatter") []
           [("number_format", T ".2f"); ("degree_symbol", T EmptyString)]);
      set1 "lat_formatter"
        (ECall (N "LatitudeFormatter") []
           [("number_format", T ".2f"); ("degree_symbol", T EmptyString)]);
      SExpr (meth (EAttr (N "axes") "xaxis") "set_major_formatter"
               [N "lon_formatter"]);
      SExpr (meth (EAttr (N "axes") "yaxis") "set_major_formatter"
               [N "lat_formatter"]);
      SExpr (call (qual "plt" "show") []) ].

(** [gdal.TranslateOptions(gdal.ParseCommandLine(opts))] *)
Definition translate_options (opts : string) : expr :=
  call (qual "gdal" "TranslateOptions")
    [call (qual "gdal" "ParseCommandLine") [T opts]].

Definition kmz_cell : cell :=
  Cell 788
    [ set1 "unwPhase" (call (qual "gdal" "Open") [unw_path]);
      set1 "translateOptions"
        (translate_options "-of KMLSUPEROVERLAY -scale -co format=png");
      set1 "kmzFile"
        (ECall (qual "gdal" "Translate") [T "unwrappedPhase.kmz"; N "unwPhase"]
           [("options", N "translateOptions")]);
      set1 "unwPhase" ENone;
      py_print [T "Done: "];
      SShell "ls" (lits ["unwrappedPhase.kmz"]) ].

Definition kmz_crop_cell : cell :=
  Cell 830
    [ set1 "unwPhase" (call (qual "gdal" "Open") [unw_path]);
      set1 "translateOptions"
        (translate_options
           "-of KMLSUPEROVERLAY -scale -co format=png -projwin -81.00 42.30 -80.00 41.50");
      set1 "kmzFileCrop"
        (ECall (qual "gdal" "Translate")
           [T "unwrappedPhaseCrop.kmz"; N "unwPhase"]
           [("options", N "translateOptions")]);
      set1 "unwPhase" ENone;
      py_print [T "Done: "];
      SShell "ls" (lits ["unwrappedPhaseCrop.kmz"]) ].

Definition kmz_cli_cell : cell :=
  Cell 881
    [ SShell "gdal_translate"
        (lits ["-of"; "KMLSUPEROVERLAY"; "-scale"; "-co"; "format=png";
               "NETCDF:./products/S1-GUNW-A-R-077-tops-20190222_20190210-231605-42666N_40796N-PP-d75b-v2_0_1.nc:/science/grids/data/unwrappedPhase";
               "unwrappedPhase.kmz"]);
      SShell "ls" (lits ["unwrappedPhase.kmz"]) ].

Definition kmz_crop_cli_cell : cell :=
  Cell 912
    [ SShell "gdal_translate"
        (lits ["-of"; "KMLSUPEROVERLAY"; "-scale"; "-co"; "format=png";
               "-projwin"; "-81.00"; "42.30"; "-80.00"; "41.50";
               "NETCDF:./products/S1-GUNW-A-R-077-tops-20190222_20190210-231605-42666N_40796N-PP-d75b-v2_0_1.nc:/science/grids/data/unwrappedPhase";
               "unwrappedPhaseCrop.kmz"]);
      SShell "ls" (lits ["unwrappedPhaseCrop.kmz"]) ].

Definition nb : notebook :=
  Notebook "GDAL_basics"
    [ setup_cell; download_cell; open_cell; info_cell; gdalinfo_cell;
      sub_open_cell; stats_cell; gdalinfo_sub_cell; gdalinfo_stats_cell;
      srsinfo_cell; load_cell; corner_cell; masking_cell; map_cell;
      kmz_cell; kmz_crop_cell; kmz_cli_cell; kmz_crop_cli_cell ].

End GdalBasicsNb.

(* ===================================================================== *)
(** ** The ariaDownload tutorial (GDAL_basics.ipynb, lines 980-1511) *)
(* ===================================================================== *)

Module AriaDownloadNb.

Definition hr_bbox : string := "36.75 37.225 -76.655 -75.928".

(** [!ariaDownload.py <args>] at the given line. *)
Definition download (line : nat) (args : list string) : cell :=
  Cell line [SShell "ariaDownload.py" (lits args)].

Definition nb : notebook :=
  Notebook "ariaDownload_tutorial"
    [ download 1038 [];
      download 1087 ["--track"; "4"; "--output"; "count"];
      download 1117 ["--track"; "4"; "--output"; "url"];
      Cell 1137
        [SShell "head"
           (lits ["-n"; "10"; "products/download_products_4track_0.txt"])];
      download 1167 ["--track"; "4"; "--output"; "kmz"];
      download 1261 ["--track"; "4"; "--bbox"; hr_bbox; "-o"; "count"];
      download 1292
        ["--track"; "4"; "--bbox"; "./support_docs/HR_North.shp"; "-o"; "count"];
      download 1333
        ["--track"; "4"; "--bbox"; hr_bbox; "-o"; "count"; "--start"; "20190101"];
      download 1344
        ["--track"; "4"; "--bbox"; hr_bbox; "-o"; "count"; "-s"; "20190101";
         "--end"; "20190401"; "--verbose"];
      download 1385
        ["--track"; "4"; "--bbox"; hr_bbox; "-o"; "count"; "--daysless"; "13";
         "-v"];
      download 1405
        ["--track"; "4"; "--bbox"; hr_bbox; "-o"; "count"; "--daysmore"; "364"];
      download 1425
        ["--track"; "4"; "--bbox"; hr_bbox; "-o"; "count"; "-m"; "59"; "-l";
         "181"; "-v"];
      download 1455
        ["-b"; hr_bbox; "-o"; "count"; "--ifg"; "20161018_20160702"; "-v"] ].

End AriaDownloadNb.

(** The notebooks of the repository. *)
Definition notebooks : list notebook :=
  [AriaPlotNb.nb; GdalBasicsNb.nb; AriaDownloadNb.nb].

Definition all_cells : list cell := flat_map cells notebooks.

(* ===================================================================== *)
(** ** Static analyses over the cells *)
(* ===================================================================== *)

(** *** Error handling: [try], [raise], loops that could retry *)

Module ErrorHandling.

Definition is_try (s : stmt) : bool :=
  match s with STry _ _ => true | _ => false end.
Definition is_raise (s : stmt) : bool :=
  match s with SRaise _ => true | _ => false end.
Definition is_while (s : stmt) : bool :=
  match s with SWhile _ _ => true | _ => false end.

(** A cell handles no error of its own: it holds no [try] and no [raise]. *)
Definition no_error_handling (c : cell) : bool :=
  negb (existsb (fun s => is_try s || is_raise s) (flatten_block (code c))).

Definition handlers (b : list stmt) : list stmt :=
  filter is_try (flatten_block b).
Definition raises (b : list stmt) : list stmt :=
  filter is_raise (flatten_block b).
Definition while_loops (b : list stmt) : list stmt :=
  filter is_while (flatten_block b).

(** The cells that do handle or raise errors: notebook and line. *)
Definition error_handling_cells (ns : list notebook) : list (string * nat) :=
  flat_map (fun n =>
              map (fun c => (nb_name n, cell_line c))
                  (filter (fun c => negb (no_error_handling c)) (cells n)))
           ns.

End ErrorHandling.

(** *** Where calls go: provenance of names and the kind of each cell *)

Module Provenance.

(** The top-level package of a module path: ["matplotlib"] for
    ["matplotlib.pyplot"]. *)
Fixpoint package_of (m : string) : string :=
  match m with
  | EmptyString => EmptyString
  | String c r =>
      if Ascii.eqb c "."%char then EmptyString else String c (package_of r)
  end.

Definition geospatial_packages : list string := ["osgeo"].
Definition charting_packages : list string :=
  ["matplotlib"; "mpl_toolkits"; "cartopy"].

(** The command-line programs the notebooks are said to shell out to. *)
Definition cli_programs : list string :=
  ["ariaDownload.py"; "ariaPlot.py"; "gdalinfo"; "gdal_translate";
   "gdalsrsinfo"].

(** What is known about the names of a session: the package a name's
    value comes from, and for a function defined in a cell the packages
    its body calls into. *)
Record env : Type := Env {
  prov : list (string * string);
  funs : list (string * list string)
}.

Definition empty : env := Env [] [].

Fixpoint lookup {A} (x : string) (l : list (string * A)) : option A :=
  match l with
  | [] => None
  | (y, a) :: r => if String.eqb x y then Some a else lookup x r
  end.

Definition drop {A} (xs : list string) (l : list (string * A))
  : list (string * A) :=
  filter (fun p => negb (str_in (fst p) xs)) l.

Definition bind (xs : list string) (o : option string) (g : env) : env :=
  match o with
  | Some p => Env (map (fun x => (x, p)) xs ++ drop xs (prov g))
                  (drop xs (funs g))
  | None => Env (drop xs (prov g)) (drop xs (funs g))
  end.

(** The package the value of an expression comes from: that of the name
    it hangs off. *)
Definition origin (g : env) (e : expr) : option string :=
  match root e with
  | Some r => lookup r (prov g)
  | None => None
  end.

(** The packages a call goes to: the package of its callee, or for a
    function of the notebook the packages its body calls into. *)
Definition call_targets (g : env) (e : expr) : list string :=
  match e with
  | ECall f _ _ =>
      match root f with
      | Some r =>
          match lookup r (funs g) with
          | Some ps => ps
          | None => match lookup r (prov g) with Some p => [p] | None => [] end
          end
      | None => []
      end
  | _ => []
  end.

Definition targets_of (g : env) (es : list expr) : list string :=
  flat_map (call_targets g) (flat_map subexprs es).

(** One statement: the packages its calls go to, and the environment
    after it.  Blocks run in order; a function body is scanned with the
    parameters unknown and is recorded under the function's name. *)
Fixpoint scan (s : stmt) (g : env) {struct s} : list string * env :=
  let block :=
    fix block (b : list stmt) (g : env) {struct b} : list string * env :=
      match b with
      | [] => ([], g)
      | x :: r =>
          let (t1, g1) := scan x g in
          let (t2, g2) := block r g1 in
          (t1 ++ t2, g2)
      end in
  let here := targets_of g (own_exprs s) in
  match s with
  | SImport bs =>
      ([], fold_left (fun g b => bind [snd b] (Some (package_of (fst b))) g)
                     bs g)
  | SAssign ts e => (here, bind ts (origin g e) g)
  | SFor ts it b =>
      let (t, g') := block b (bind ts (origin g it) g) in (here ++ t, g')
  | SIf _ t e =>
      let (t1, g1) := block t g in
      let (t2, g2) := block e g1 in
      (here ++ t1 ++ t2, g2)
  | SWhile _ b => let (t, g') := block b g in (here ++ t, g')
  | STry b h =>
      let (t1, g1) := block b g in
      let (t2, g2) := block h g1 in
      (t1 ++ t2, g2)
  | SDef name ps kw b =>
      let locals := map fst ps ++ match kw with Some k => [k] | None => [] end in
      let (t, _) := block b (bind locals None g) in
      (here ++ t, Env (drop [name] (prov g)) ((name, t) :: drop [name] (funs g)))
  | _ => (here, g)
  end.

Fixpoint scan_block (b : list stmt) (g : env) : list string * env :=
  match b with
  | [] => ([], g)
  | x :: r =>
      let (t1, g1) := scan x g in
      let (t2, g2) := scan_block r g1 in
      (t1 ++ t2, g2)
  end.

(** The programs a cell shells out to. *)
Definition shell_programs (c : cell) : list string :=
  flat_map (fun s => match s with SShell p _ => [p] | _ => [] end)
           (flatten_block (code c)).

Inductive category : Type := GeoApi | CliTool | Plotting.

(** The kinds of a cell, given the programs that count as tools and the
    packages its calls go to. *)
Definition categories (tools : list string) (targets : list string) (c : cell)
  : list category :=
  (if existsb (fun p => str_in p geospatial_packages) targets
   then [GeoApi] else [])
  ++ (if existsb (fun p => str_in p tools) (shell_programs c)
      then [CliTool] else [])
  ++ (if existsb (fun p => str_in p charting_packages) targets
      then [Plotting] else []).

(** The cells of a notebook in order, each with its line and kinds. *)
Fixpoint classify (tools : list string) (cs : list cell) (g : env)
  : list (nat * list category) :=
  match cs with
  | [] => []
  | c :: r =>
      let (t, g') := scan_block (code c) g in
      (cell_line c, categories tools t c) :: classify tools r g'
  end.

Definition classify_nb (tools : list string) (n : notebook)
  : list (nat * list category) :=
  classify tools (cells n) empty.

(** Lines of the cells of no kind. *)
Definition unclassified (tools : list string) (n : notebook) : list nat :=
  map fst (filter (fun p => match snd p with [] => true | _ => false end)
                  (classify_nb tools n)).

End Provenance.

(** *** Dataset handles: which variables still hold one *)

Module Handles.

(** The calls that hand out a dataset handle. *)
Definition opener (e : expr) : option string :=
  if is_call_to ["gdal"; "Open"] e then Some "gdal.Open"
  else if is_call_to ["gdal"; "Translate"] e then Some "gdal.Translate"
  else None.

(** Variables holding a handle, each with the call it came from. *)
Definition held := list (string * string).

Definition release (xs : list string) (h : held) : held :=
  filter (fun p => negb (str_in (fst p) xs)) h.

(** Assigning to a variable drops what it held.  The new value is a
    handle when it comes from an opener, or is another variable that
    holds one. *)
Definition assign (xs : list string) (e : expr) (h : held) : held :=
  let from :=
    match opener e with
    | Some k => Some k
    | None =>
        match e with
        | EName y => Provenance.lookup y h
        | _ => None
        end
    end in
  match from with
  | Some k => map (fun x => (x, k)) xs ++ release xs h
  | None => release xs h
  end.

(** Run a block in order.  A function body is a scope of its own. *)
Fixpoint track (s : stmt) (h : held) {struct s} : held :=
  let block :=
    fix block (b : list stmt) (h : held) {struct b} : held :=
      match b with
      | [] => h
      | x :: r => block r (track x h)
      end in
  match s with
  | SAssign ts e => assign ts e h
  | SFor ts _ b => block b (release ts h)
  | SIf _ t e => block e (block t h)
  | SWhile _ b => block b h
  | STry b hd => block hd (block b h)
  | _ => h
  end.

Definition track_block (b : list stmt) (h : held) : held :=
  fold_left (fun h s => track s h) b h.

(** The handles still held when every cell of a notebook has run. *)
Definition unreleased (n : notebook) : held :=
  track_block (flat_map code (cells n)) [].

(** Every handle-giving call of a block, with the variable it is
    assigned to. *)
Definition opened (b : list stmt) : list (string * string) :=
  flat_map (fun s => match s with
                     | SAssign [x] e =>
                         match opener e with
                         | Some k => [(x, k)]
                         | None => []
                         end
                     | _ => []
                     end) (flatten_block b).

(** The bodies of the functions a block defines. *)
Definition function_bodies (b : list stmt) : list (string * list stmt) :=
  flat_map (fun s => match s with
                     | SDef f _ _ body => [(f, body)]
                     | _ => []
                     end) (flatten_block b).

End Handles.

(** *** Command lines *)

Module CommandLine.

(** The argument lists of every invocation of a program. *)
Definition invocations (prog : string) (cs : list cell) : list (list word) :=
  flat_map (fun s => match s with
                     | SShell p a => if String.eqb p prog then [a] else []
                     | _ => []
                     end) (flatten_block (flat_map code cs)).

(** An option table: spelling, and whether a value follows. *)
Definition options := list (string * bool).

(** Every word of the command line is an option of the table or the
    value of one. *)
Fixpoint uses_only (sig : options) (args : list word) : bool :=
  match args with
  | [] => true
  | Lit o :: rest =>
      match Provenance.lookup o sig with
      | Some true =>
          match rest with
          | _ :: rest' => uses_only sig rest'
          | [] => false
          end
      | Some false => uses_only sig rest
      | None => false
      end
  | Interp _ :: _ => false
  end.

(** The words that follow [-o] or [--output]. *)
Fixpoint output_values (args : list word) : list word :=
  match args with
  | [] => []
  | a :: rest =>
      (match a, rest with
       | Lit o, v :: _ =>
           if String.eqb o "-o" || String.eqb o "--output" then [v] else []
       | _, _ => []
       end) ++ output_values rest
  end.

Definition output_choices : list string := ["download"; "count"; "kmz"; "url"].

Definition is_choice (w : word) : bool :=
  match w with
  | Lit v => str_in v output_choices
  | Interp _ => false
  end.

(** The options as the usage line of [ariaDownload.py] spells them:
    [--track T] [--bbox B] [--ifg I] [--start D] [--end D] [--daysless N]
    [--daysmore N] [-o|--output CHOICE] [-w WORKDIR] [-v]. *)
Definition usage_line_options : options :=
  [ ("--track", true); ("--bbox", true); ("--ifg", true); ("--start", true);
    ("--end", true); ("--daysless", true); ("--daysmore", true);
    ("-o", true); ("--output", true); ("-w", true); ("-v", false) ].

(** The options the notebooks pass, with the short and long spellings
    they use next to those of the usage line. *)
Definition used_options : options :=
  [ ("--track", true); ("-t", true); ("--bbox", true); ("-b", true);
    ("--ifg", true); ("--start", true); ("-s", true); ("--end", true);
    ("-e", true); ("--daysless", true); ("-l", true); ("--daysmore", true);
    ("-m", true); ("-o", true); ("--output", true); ("-w", true);
    ("-v", false); ("--verbose", false) ].

Definition ariaDownload_invocations : list (list word) :=
  invocations "ariaDownload.py" all_cells.

End CommandLine.

(** *** Resolving variables to the expressions assigned to them *)

Module Resolve.

Definition bindings := list (string * expr).

(** Replace every bound name by its expression. *)
Fixpoint subst (g : bindings) (e : expr) : expr :=
  match e with
  | EName x => match Provenance.lookup x g with Some v => v | None => e end
  | EAttr a n => EAttr (subst g a) n
  | ECall f args kw =>
      ECall (subst g f) (map (subst g) args)
            (map (fun p => (fst p, subst g (snd p))) kw)
  | EBinOp op l r => EBinOp op (subst g l) (subst g r)
  | ENot a => ENot (subst g a)
  | EIndex a i => EIndex (subst g a) (subst g i)
  | EList es => EList (map (subst g) es)
  | ETuple es => ETuple (map (subst g) es)
  | EDict kvs => EDict (map (fun p => (fst p, subst g (snd p))) kvs)
  | EIfExp a b c => EIfExp (subst g a) (subst g b) (subst g c)
  | ELambda ps b => ELambda ps (subst (Provenance.drop ps g) b)
  | _ => e
  end.

(** The calls of the function [p] a statement makes itself, with the
    variables of their arguments resolved. *)
Definition calls_here (p : list string) (g : bindings) (s : stmt) : list expr :=
  map (subst g)
      (filter (is_call_to p) (flat_map subexprs (own_exprs s))).

(** Walk a block in order, keeping the latest assignment of each
    variable.  Function bodies are not entered. *)
Fixpoint walk (p : list string) (s : stmt) (g : bindings) {struct s}
  : list expr * bindings :=
  let block :=
    fix block (b : list stmt) (g : bindings) {struct b}
      : list expr * bindings :=
      match b with
      | [] => ([], g)
      | x :: r =>
          let (c1, g1) := walk p x g in
          let (c2, g2) := block r g1 in
          (c1 ++ c2, g2)
      end in
  let here := calls_here p g s in
  match s with
  | SAssign [x] e => (here, (x, subst g e) :: Provenance.drop [x] g)
  | SAssign ts _ => (here, Provenance.drop ts g)
  | SFor ts _ b =>
      let (c, g') := block b (Provenance.drop ts g) in (here ++ c, g')
  | SIf _ t e =>
      let (c1, g1) := block t g in
      let (c2, g2) := block e g1 in
      (here ++ c1 ++ c2, g2)
  | SWhile _ b => let (c, g') := block b g in (here ++ c, g')
  | STry b h =>
      let (c1, g1) := block b g in
      let (c2, g2) := block h g1 in
      (c1 ++ c2, g2)
  | SImport bs => ([], Provenance.drop (map snd bs) g)
  | SDef f _ _ _ => (here, Provenance.drop [f] g)
  | _ => (here, g)
  end.

Fixpoint walk_block (p : list string) (b : list stmt) (g : bindings)
  : list expr * bindings :=
  match b with
  | [] => ([], g)
  | x :: r =>
      let (c1, g1) := walk p x g in
      let (c2, g2) := walk_block p r g1 in
      (c1 ++ c2, g2)
  end.

(** The calls of [p] in the top-level code of a notebook, resolved. *)
Definition resolved_calls (p : list string) (n : notebook) : list expr :=
  fst (walk_block p (flat_map code (cells n)) []).

End Resolve.

(** *** KMZ exports *)

Module Kmz.

(** Split at blanks, as [gdal.ParseCommandLine] does for a line
    without quotes. *)
Fixpoint split_blank (s : string) (cur : string) : list string :=
  let emit := match cur with EmptyString => [] | _ => [cur] end in
  match s with
  | EmptyString => emit
  | String c r =>
      if Ascii.eqb c " "%char then emit ++ split_blank r EmptyString
      else split_blank r (cur ++ String c EmptyString)
  end.

Definition words_of (s : string) : list string := split_blank s EmptyString.

(** An export: the options given, and the output file.  [None] stands
    for a call or command line of another shape. *)
Record export : Type := Export { options : list string; output : string }.

Fixpoint unlit (ws : list word) : option (list string) :=
  match ws with
  | [] => Some []
  | Lit s :: r => option_map (cons s) (unlit r)
  | Interp _ :: _ => None
  end.

(** [gdal_translate <options> <in> <out>] *)
Definition of_command (args : list word) : option export :=
  match unlit args with
  | Some ws =>
      match rev ws with
      | out :: _ :: ropts => Some (Export (rev ropts) out)
      | _ => None
      end
  | None => None
  end.

(** [gdal.Translate(out, src,
      options=gdal.TranslateOptions(gdal.ParseCommandLine(opts)))] *)
Definition of_call (e : expr) : option export :=
  match e with
  | ECall _ [EStr out; _] [(k, ECall f1 [ECall f2 [EStr opts] []] [])] =>
      if String.eqb k "options"
         && is_call_to ["gdal"; "TranslateOptions"] (ECall f1 [] [])
         && is_call_to ["gdal"; "ParseCommandLine"] (ECall f2 [] [])
      then Some (Export (words_of opts) out)
      else None
  | _ => None
  end.

(** Every KMZ export of the notebooks: the [gdal_translate] command
    lines and the [gdal.Translate] calls. *)
Definition exports : list (option export) :=
  map of_command (CommandLine.invocations "gdal_translate" all_cells)
  ++ map of_call
       (flat_map (Resolve.resolved_calls ["gdal"; "Translate"]) notebooks).

Definition base_options : list string :=
  ["-of"; "KMLSUPEROVERLAY"; "-scale"; "-co"; "format=png"].

Definition list_eqb (a b : list string) : bool :=
  if list_eq_dec string_dec a b then true else false.

(** A decimal number: an optional sign, digits, at most one point. *)
Definition is_digit (c : ascii) : bool :=
  let n := nat_of_ascii c in Nat.leb 48 n && Nat.leb n 57.

Fixpoint digits_point (s : string) (seen_digit seen_point : bool) : bool :=
  match s with
  | EmptyString => seen_digit
  | String c r =>
      if is_digit c then digits_point r true seen_point
      else if Ascii.eqb c "."%char
           then negb seen_point && digits_point r seen_digit true
           else false
  end.

Definition is_number (s : string) : bool :=
  match s with
  | String "-"%char r => digits_point r false false
  | _ => digits_point s false false
  end.

(** The option set of an export: the base options, alone or followed by
    [-projwin] and four numbers. *)
Definition options_ok (o : list string) : bool :=
  list_eqb (firstn 5 o) base_options
  && match skipn 5 o with
     | [] => true
     | [p; w; n; e; s] =>
         String.eqb p "-projwin" && forallb is_number [w; n; e; s]
     | _ => false
     end.

Fixpoint ends_with (suffix s : string) : bool :=
  String.eqb s suffix
  || match s with
     | EmptyString => false
     | String _ r => ends_with suffix r
     end.

Definition export_ok (x : option export) : bool :=
  match x with
  | Some e => options_ok (options e) && ends_with ".kmz" (output e)
  | None => false
  end.

End Kmz.

(** *** The paths handed to [gdal.Open] *)

Module Paths.

(** The product file of the GDAL notebook and the sub-dataset paths. *)
Definition product : string :=
  "S1-GUNW-A-R-077-tops-20190222_20190210-231605-42666N_40796N-PP-d75b-v2_0_1.nc".
Definition unwrappedPhase : string := ":/science/grids/data/unwrappedPhase".
Definition connectedComponents : string :=
  ":/science/grids/data/connectedComponents".

(** The first argument of each [gdal.Open] call of the GDAL notebook,
    variables resolved. *)
Definition opened_paths : list expr :=
  flat_map (fun e => match e with
                     | ECall _ (a :: _) _ => [a]
                     | _ => []
                     end)
           (Resolve.resolved_calls ["gdal"; "Open"] GdalBasicsNb.nb).

(** The value of an expression built from string literals and [+] only. *)
Fixpoint literal_value (e : expr) : option string :=
  match e with
  | EStr s => Some s
  | EBinOp op l r =>
      if String.eqb op "+" then
        match literal_value l, literal_value r with
        | Some a, Some b => Some (a ++ b)%string
        | _, _ => None
        end
      else None
  | _ => None
  end.

(** The strings that concatenating ["NETCDF:"], the product file name
    and a sub-dataset path can give, and the file name alone. *)
Definition fixed_paths : list string :=
  [ product;
    ("NETCDF:" ++ product ++ unwrappedPhase)%string;
    ("NETCDF:" ++ product ++ connectedComponents)%string ].

(** [os.path.join(a, b)] of [posixpath]. *)
Definition join (a b : string) : string :=
  match b with
  | String "/"%char _ => b
  | _ =>
      match a with
      | EmptyString => b
      | _ => if Kmz.ends_with "/" a then (a ++ b)%string
             else (a ++ "/" ++ b)%string
      end
  end.

Section Eval.
(** The working directory of the session and [os.path.abspath], both
    outside the repository. *)
Variable getcwd : string.
Variable abspath : string -> string.

(** The value of a path expression: literals, [+], [os.getcwd],
    [os.path.abspath], [os.path.join]. *)
Fixpoint eval (e : expr) : option string :=
  match e with
  | EStr s => Some s
  | EBinOp op l r =>
      if String.eqb op "+" then
        match eval l, eval r with
        | Some a, Some b => Some (a ++ b)%string
        | _, _ => None
        end
      else None
  | ECall _ [] [] =>
      if is_call_to ["os"; "getcwd"] e then Some getcwd else None
  | ECall _ [a] [] =>
      if is_call_to ["os"; "path"; "abspath"] e
      then option_map abspath (eval a) else None
  | ECall _ [a; b] [] =>
      if is_call_to ["os"; "path"; "join"] e then
        match eval a, eval b with
        | Some x, Some y => Some (join x y)
        | _, _ => None
        end
      else None
  | _ => None
  end.

(** [fileName] of the setup cell. *)
Definition fileName : string :=
  join (join (abspath (join getcwd EmptyString)) "products") product.
End Eval.

(** [needle] occurs in [s]. *)
Fixpoint contains (needle s : string) : bool :=
  String.prefix needle s
  || match s with
     | EmptyString => false
     | String _ r => contains needle r
     end.

(** The literal words of the shell lines that name a product file. *)
Definition shell_product_words : list string :=
  flat_map (fun s => match s with
                     | SShell _ ws =>
                         flat_map (fun w => match w with
                                            | Lit t =>
                                                if contains "S1-GUNW" t
                                                then [t] else []
                                            | Interp _ => []
                                            end) ws
                     | _ => []
                     end) (flatten_block (flat_map code all_cells)).

(** The string literals of the Python code that name a product file or
    a sub-dataset. *)
Definition python_product_literals : list string :=
  flat_map (fun e => match e with
                     | EStr t =>
                         if contains "S1-GUNW" t || contains "/science/" t
                         then [t] else []
                     | _ => []
                     end) (block_exprs (flat_map code all_cells)).

End Paths.

(** *** Names: what a cell or a function reads from outside itself *)

Module Names.

(** Python built-ins the notebooks use. *)
Definition builtins : list string :=
  ["print"; "range"; "enumerate"; "isinstance"; "int"; "Exception";
   "False"; "True"].

Definition without (xs l : list string) : list string :=
  filter (fun x => negb (str_in x xs)) l.

Fixpoint dedup (l : list string) : list string :=
  match l with
  | [] => []
  | x :: r => x :: without [x] (dedup r)
  end.

(** The names an expression reads. *)
Fixpoint reads (e : expr) : list string :=
  match e with
  | EName x => [x]
  | EAttr a _ | ENot a => reads a
  | ECall f args kw =>
      reads f ++ flat_map reads args ++ flat_map (fun p => reads (snd p)) kw
  | EBinOp _ l r | EIndex l r => reads l ++ reads r
  | EList es | ETuple es => flat_map reads es
  | EDict kvs => flat_map (fun p => reads (snd p)) kvs
  | EIfExp a b c => reads a ++ reads b ++ reads c
  | ELambda ps b => without ps (reads b)
  | _ => []
  end.

(** The names a statement binds in its scope, nested blocks included;
    a [def] binds its name only. *)
Fixpoint binds (s : stmt) : list string :=
  match s with
  | SImport bs => map snd bs
  | SAssign ts _ => ts
  | SFor ts _ b => ts ++ flat_map binds b
  | SIf _ t e => flat_map binds t ++ flat_map binds e
  | SWhile _ b => flat_map binds b
  | STry b h => flat_map binds b ++ flat_map binds h
  | SDef f _ _ _ => [f]
  | _ => []
  end.

(** The names a function reads that are neither parameters nor local:
    any name assigned in the body is local to it. *)
Fixpoint needs (s : stmt) (known : list string) {struct s}
  : list string * list string :=
  let block :=
    fix block (b : list stmt) (known : list string) {struct b}
      : list string * list string :=
      match b with
      | [] => ([], known)
      | x :: r =>
          let (n1, k1) := needs x known in
          let (n2, k2) := block r k1 in
          (n1 ++ n2, k2)
      end in
  let here := without known (flat_map reads (own_exprs s)) in
  match s with
  | SImport bs => ([], map snd bs ++ known)
  | SAssign ts _ => (here, ts ++ known)
  | SShell _ ws =>
      (without known
         (flat_map (fun w => match w with Interp x => [x] | Lit _ => [] end) ws),
       known)
  | SFor ts _ b => let (n, k) := block b (ts ++ known) in (here ++ n, k)
  | SIf _ t e =>
      let (n1, k1) := block t known in
      let (n2, k2) := block e k1 in
      (here ++ n1 ++ n2, k2)
  | SWhile _ b => let (n, k) := block b known in (here ++ n, k)
  | STry b h =>
      let (n1, k1) := block b known in
      let (n2, k2) := block h k1 in
      (n1 ++ n2, k2)
  | SDef f ps kw b =>
      let locals :=
        map fst ps ++ match kw with Some k => [k] | None => [] end
        ++ flat_map binds b in
      let (n, _) := block b (locals ++ f :: known) in
      (here ++ n, f :: known)
  | _ => (here, known)
  end.

Fixpoint needs_block (b : list stmt) (known : list string)
  : list string * list string :=
  match b with
  | [] => ([], known)
  | x :: r =>
      let (n1, k1) := needs x known in
      let (n2, k2) := needs_block r k1 in
      (n1 ++ n2, k2)
  end.

(** What a cell reads that it does not bind itself first, built-ins
    apart. *)
Definition cell_needs (c : cell) : list string :=
  dedup (fst (needs_block (code c) builtins)).

(** Run the cells in order.  For each: its line, the names it takes
    from earlier cells, and the names it needs that no earlier cell
    has bound. *)
Fixpoint session (cs : list cell) (bound : list string)
  : list (nat * list string * list string) :=
  match cs with
  | [] => []
  | c :: r =>
      let n := cell_needs c in
      (cell_line c, filter (fun x => str_in x bound) n, without bound n)
      :: session r (flat_map binds (code c) ++ bound)
  end.

(** The names no earlier cell has bound, over a whole notebook. *)
Definition unbound (n : notebook) : list string :=
  flat_map snd (session (cells n) []).

(** The names an [import] of the notebook binds. *)
Definition imported (n : notebook) : list string :=
  flat_map (fun s => match s with SImport bs => map snd bs | _ => [] end)
           (flatten_block (flat_map code (cells n))).



(** The packages the calls of a notebook go into, and the functions
    the notebook defines. *)
Definition packages_called (n : notebook) : list string :=
  dedup (fst (Provenance.scan_block (flat_map code (cells n))
                                    Provenance.empty)).

Definition defined_functions (n : notebook) : list string :=
  map fst (Handles.function_bodies (flat_map code (cells n))).

End Names.

(* ===================================================================== *)
(** ** What the code computes: [plot_layer] and the masking cell *)
(* ===================================================================== *)

Module Sem.

(** Exceptions the code can end in. *)
Inductive exn : Type :=
| Exception (msg : string)   (* [raise Exception(msg)] *)
| IndexError                 (* index out of range *)
| AttributeError             (* attribute of [None] *)
| ValueError                 (* matplotlib: a grid without columns *)
| MaskError                  (* numpy.ma: mask and data of different sizes *)
| GdalError (msg : string).  (* raised inside a GDAL call *)

(** A raster band as the code uses it: the pixels [ReadAsArray] gives,
    in row-major order, and the answer of [GetNoDataValue]: an error, no
    value ([None]), or the value. *)
Record Band (A : Type) : Type := {
  ReadAsArray : list A;
  GetNoDataValue : exn + option A
}.
Arguments ReadAsArray {A} _.
Arguments GetNoDataValue {A} _.

(** *** Paths: [os.path.basename], [os.path.dirname] *)

(** Split at the last slash: the head with that slash, and the tail. *)
Fixpoint rsplit (p : string) : option (string * string) :=
  match p with
  | EmptyString => None
  | String c r =>
      match rsplit r with
      | Some (h, t) => Some (String c h, t)
      | None =>
          if Ascii.eqb c "/"%char then Some (String c EmptyString, r) else None
      end
  end.

Fixpoint rstrip_slash (s : string) : string :=
  match s with
  | EmptyString => EmptyString
  | String c r =>
      match rstrip_slash r with
      | EmptyString =>
          if Ascii.eqb c "/"%char then EmptyString else String c EmptyString
      | r' => String c r'
      end
  end.

Definition basename (p : string) : string :=
  match rsplit p with
  | Some (_, t) => t
  | None => p
  end.

(** A head made of slashes only is kept; otherwise its trailing slashes go. *)
Definition dirname (p : string) : string :=
  match rsplit p with
  | Some (h, _) =>
      match rstrip_slash h with
      | EmptyString => h
      | h' => h'
      end
  | None => EmptyString
  end.

Section Raster.

(** Pixel values with NumPy's element comparisons [v > 1e20] and
    [v == w]. *)
Variable V : Type.
Variable gt_1e20 : V -> bool.
Variable eqv : V -> V -> bool.

(** [v == NoData]; comparing with [None] is false everywhere. *)
Definition eq_nodata (v : V) (NoData : option V) : bool :=
  match NoData with
  | Some w => eqv v w
  | None => false
  end.

(** A NumPy masked array, flattened: data, mask, fill value. *)
Record masked : Type := Masked {
  data : list V;
  mask : list bool;
  fill_value : option Z
}.

(** A plain array has nothing masked. *)
Definition plain (a : list V) : masked :=
  Masked a (repeat false (length a)) None.

(** Element-wise [|] of two boolean arrays. *)
Definition lor (a b : list bool) : list bool :=
  map (fun p => fst p || snd p) (combine a b).

(** [np.ma.masked_where(condition, a)]: the condition becomes the
    mask; sizes must agree. *)
Definition masked_where (condition : list bool) (a : list V) : exn + masked :=
  if Nat.eqb (length condition) (length a)
  then inr (Masked a condition None)
  else inl IndexError.

(** [np.ma.masked_array(d, mask=m, fill_value=f)], with the default
    [keep_mask=True]: a mask of one element is repeated, a mask of
    another size is an error, and the mask given is or-ed with the
    mask [d] already has. *)
Definition masked_array (d : masked) (m : list bool) (f : Z) : exn + masked :=
  let nd := length (data d) in
  let nm := length m in
  if Nat.eqb nm nd then inr (Masked (data d) (lor m (mask d)) (Some f))
  else if Nat.eqb nm 1
       then inr (Masked (data d) (lor (repeat (hd false m) nd) (mask d))
                        (Some f))
       else inl MaskError.

(** *** Events and the monad of the model *)

(** What [plot_layer] does to the outside, in order. *)
Inductive event : Type :=
| Printed (s : string)
| Close                                  (* [ds = None] *)
| Subplots (nrows ncols : nat)
| SubplotsAdjust
| Imshow (axis : nat) (arr : masked) (cmap : string) (vmin vmax : option Z)
| Colorbar (axis : nat) (three_decimals : bool)
| SetTitle (axis : nat) (t : string)
| SetYLabel (axis : nat)
| SetXLabel (axis : nat).

(** A run: the events so far, and an exception or a value. *)
Definition M (A : Type) : Type := (list event * (exn + A))%type.

Definition ret {A} (a : A) : M A := ([], inr a).
Definition raise {A} (e : exn) : M A := ([], inl e).
Definition lift {A} (r : exn + A) : M A := ([], r).
Definition emit (ev : event) : M unit := ([ev], inr tt).

Definition bind {A B} (m : M A) (k : A -> M B) : M B :=
  match m with
  | (l, inl e) => (l, inl e)
  | (l, inr a) => let (l', r) := k a in (l ++ l', r)
  end.

(** [try: m  except: h], a bare [except] that catches everything. *)
Definition try_except {A} (m h : M A) : M A :=
  match m with
  | (l, inl _) => let (l', r) := h in (l ++ l', r)
  | (_, inr _) => m
  end.

Notation "x <- m ;; k" := (bind m (fun x => k))
  (at level 61, m at next level, right associativity).
Notation "m ;;; k" := (bind m (fun _ => k))
  (at level 61, right associativity).

(** *** [plot_layer] *)

(** An opened dataset: its bands. *)
Record Dataset : Type := { bands : list (Band V) }.

Definition RasterCount (ds : Dataset) : nat := length (bands ds).

(** [ds.GetRasterBand(i)], bands counted from 1. *)
Definition GetRasterBand (ds : Dataset) (i : nat) : M (Band V) :=
  match i with
  | O => raise (GdalError "Illegal band #")
  | S j =>
      match nth_error (bands ds) j with
      | Some b => ret b
      | None => raise (GdalError "Illegal band #")
      end
  end.

(** The body of the band loop for one band: read, then mask. *)
Definition read_band (raster : Band V) : M masked :=
  let arr := ReadAsArray raster in
  try_except
    (NoData <- lift (GetNoDataValue raster) ;;
     lift (masked_where
             (lor (map gt_1e20 arr) (map (fun v => eq_nodata v NoData) arr))
             arr))
    (emit (Printed "Could not find a no-data value...") ;;;
     lift (masked_where (map gt_1e20 arr) arr)).

(** [for band in range(n_bands)], appending to [lst_arrs]. *)
Fixpoint band_loop (ds : Dataset) (range : list nat) (lst_arrs : list masked)
  : M (list masked) :=
  match range with
  | [] => ret lst_arrs
  | band :: rest =>
      raster <- GetRasterBand ds (band + 1) ;;
      arr <- read_band raster ;;
      band_loop ds rest (lst_arrs ++ [arr])
  end.

(** The plotting options of a layer type:
    [(vmin, vmax, cmap, title, adjust)]. *)
Definition layer_options (lay_type : string) (title : list string)
  : option Z * option Z * string * list string * bool :=
  if Kmz.ends_with "amplitude" lay_type
  then (None, Some 2000%Z, "Greys_r", title, false)
  else if Kmz.ends_with "coherence" lay_type
  then (Some 0%Z, Some 1%Z, "Greys_r", title, false)
  else if Kmz.ends_with "incidenceAngle" lay_type
  then (None, None, "Greys_r", title, false)
  else if String.prefix "water" lay_type
  then (None, None, "Greys_r", title, false)
  else if String.prefix "defo" lay_type
  then (None, None, "coolwarm", title, false)
  else if String.prefix "terr" lay_type || String.prefix "topo" lay_type
  then (None, None, "terrain", title, false)
  else if String.eqb lay_type "ENU"
  then (None, None, "Greys_r", ["East"; "North"; "Up"], true)
  else (None, None, "coolwarm", title, false).

Definition index {A} (l : list A) (i : nat) : M A :=
  match nth_error l i with
  | Some a => ret a
  | None => raise IndexError
  end.

(** [for i, ax in enumerate(axe)] *)
Fixpoint plot_loop (axes : list nat) (lst_arrs : list masked)
  (cmap : string) (vmin vmax : option Z) (enu : bool) (title : list string)
  : M unit :=
  match axes with
  | [] => ret tt
  | i :: rest =>
      arr <- index lst_arrs i ;;
      emit (Imshow i arr cmap vmin vmax) ;;;
      emit (Colorbar i enu) ;;;
      t <- index title i ;;
      emit (SetTitle i t) ;;;
      plot_loop rest lst_arrs cmap vmin vmax enu title
  end.

(** From the band-count test to the axis labels. *)
Definition draw (n_bands : nat) (lay_type : string) (title : list string)
  (lst_arrs : list masked) : M unit :=
  grid <- (if Nat.ltb n_bands 4 then ret (1, n_bands)
           else raise (Exception "Number of bands currently unsupported")) ;;
  let (nrows, ncols) := (grid : nat * nat) in
  emit (Subplots nrows ncols) ;;;
  axe <- (if Nat.eqb ncols 0 then raise ValueError
          else ret (seq 0 (nrows * ncols))) ;;
  let '(vmin, vmax, cmap, title, adjust) := layer_options lay_type title in
  (if adjust then emit SubplotsAdjust else ret tt) ;;;
  plot_loop axe lst_arrs cmap vmin vmax
            (String.eqb lay_type "ENU") title ;;;
  y <- index axe 0 ;;
  emit (SetYLabel y) ;;;
  x <- index axe (n_bands / 2) ;;
  emit (SetXLabel x).

(** [not lay_type] holds for [None] and for the empty string. *)
Definition layer_type (path_layer : string) (lay_type : option string)
  : string :=
  match lay_type with
  | Some (String _ _ as t) => t
  | _ => dirname path_layer
  end.

(** The arrays of the bands: the band loop over [range(n_bands)]. *)
Definition read_bands (ds : Dataset) : M (list masked) :=
  band_loop ds (seq 0 (RasterCount ds)) [].

(** [plot_layer(path_layer, lay_type)]; [gdal_Open] gives the dataset
    at a path, or [None] when it cannot be opened. *)
Definition plot_layer (gdal_Open : string -> option Dataset)
  (path_layer : string) (lay_type : option string) : M unit :=
  let lay_type := layer_type path_layer lay_type in
  let title := [basename lay_type] in
  ds <- match gdal_Open path_layer with
        | Some ds => ret ds
        | None => raise AttributeError
        end ;;
  lst_arrs <- read_bands ds ;;
  emit Close ;;;
  draw (RasterCount ds) lay_type title lst_arrs.

(** The grids asked of [plt.subplots] in a run. *)
Definition layout (log : list event) : list (nat * nat) :=
  flat_map (fun ev => match ev with
                      | Subplots r c => [(r, c)]
                      | _ => []
                      end) log.

(** A run that asks for no grid and does not end in an [Exception]
    of the code's own. *)
Definition quiet {A} (m : M A) : Prop :=
  layout (fst m) = [] /\ forall msg, snd m <> inl (Exception msg).

(** The band loop in closed form: the array it makes of a band, and
    what it prints for it. *)
Definition masked_band (b : Band V) : masked :=
  let arr := ReadAsArray b in
  match GetNoDataValue b with
  | inr NoData =>
      Masked arr (map (fun v => gt_1e20 v || eq_nodata v NoData) arr) None
  | inl _ => Masked arr (map gt_1e20 arr) None
  end.

Definition band_events (b : Band V) : list event :=
  match GetNoDataValue b with
  | inr _ => []
  | inl _ => [Printed "Could not find a no-data value..."]
  end.

(** *** The masking cell of the GDAL notebook *)

(** The two layers of the product the cells open. *)
Record Product : Type := {
  unwrappedPhase : Band V;
  connectedComponents : Band Z
}.

(** [unwData] of the loading cell, then the masking cell: the no-data
    value, the connected components, and the two [masked_array]
    calls. *)
Definition masking_cell (p : Product) : exn + masked :=
  let unwData := ReadAsArray (unwrappedPhase p) in
  match GetNoDataValue (unwrappedPhase p) with
  | inl e => inl e
  | inr NDV =>
      let connCompData := ReadAsArray (connectedComponents p) in
      match masked_array (plain unwData)
              (map (fun v => eq_nodata v NDV) unwData) 999999 with
      | inl e => inl e
      | inr unwDataMasked =>
          masked_array unwDataMasked
            (map (fun c => Z.eqb c 0) connCompData) 999999
      end
  end.

End Raster.

Arguments data {V} _.
Arguments mask {V} _.
Arguments fill_value {V} _.
Arguments bands {V} _.

(** *** Sample rasters with integer pixels *)

Module Sample.

Definition gt_1e20 (v : Z) : bool := (10 ^ 20 <? v)%Z.

(** A band with no-data value 0, and the same pixels behind a
    no-data query that fails. *)
Definition pixels : list Z := [1; 0; 2; 10 ^ 21]%Z.
Definition band : Band Z := {| ReadAsArray := pixels;
                               GetNoDataValue := inr (Some 0%Z) |}.
Definition band_failing : Band Z :=
  {| ReadAsArray := pixels; GetNoDataValue := inl (GdalError "no-data") |}.

Definition one_band : Dataset Z := {| bands := [band] |}.
Definition two_bands : Dataset Z := {| bands := [band; band_failing] |}.
Definition four_bands : Dataset Z :=
  {| bands := [band; band_failing; band; band] |}.

Definition opening (ds : Dataset Z) : string -> option (Dataset Z) :=
  fun _ => Some ds.

Definition components : Band Z :=
  {| ReadAsArray := [0; 1; 1; 1]%Z; GetNoDataValue := inr None |}.

Definition product : Product Z :=
  {| unwrappedPhase := band; connectedComponents := components |}.

End Sample.

End Sem.

(** *** What a run of [plot_layer] shows *)

Module Runs.
Import Sem.

Section Raster.

Variable V : Type.
Variable gt_1e20 : V -> bool.
Variable eqv : V -> V -> bool.

Definition is_print (ev : event V) : bool :=
  match ev with Printed _ _ => true | _ => false end.

Definition is_close (ev : event V) : bool :=
  match ev with Close _ => true | _ => false end.

(** The no-data query of a band raises. *)
Definition fails (b : Band V) : bool :=
  match GetNoDataValue b with inl _ => true | inr _ => false end.

(** The arrays drawn, each with its axis. *)
Definition images (log : list (event V)) : list (nat * masked V) :=
  flat_map (fun ev => match ev with
                      | Imshow _ i a _ _ _ => [(i, a)]
                      | _ => []
                      end) log.

(** The titles set, each with its axis. *)
Definition titles (log : list (event V)) : list (nat * string) :=
  flat_map (fun ev => match ev with
                      | SetTitle _ i t => [(i, t)]
                      | _ => []
                      end) log.

(** The axes given a y label and those given an x label. *)
Definition y_labels (log : list (event V)) : list nat :=
  flat_map (fun ev => match ev with SetYLabel _ i => [i] | _ => [] end) log.

Definition x_labels (log : list (event V)) : list nat :=
  flat_map (fun ev => match ev with SetXLabel _ i => [i] | _ => [] end) log.

(** One full turn of the plotting loop on axis [i]. *)
Definition shown (lst_arrs : list (masked V)) (cmap : string)
  (vmin vmax : option Z) (enu : bool) (title : list string) (i : nat)
  : list (event V) :=
  match nth_error lst_arrs i, nth_error title i with
  | Some a, Some t =>
      [Imshow V i a cmap vmin vmax; Colorbar V i enu; SetTitle V i t]
  | _, _ => []
  end.

(** The turn that stops at the missing title of axis [i]. *)
Definition shown_untitled (lst_arrs : list (masked V)) (cmap : string)
  (vmin vmax : option Z) (enu : bool) (i : nat) : list (event V) :=
  match nth_error lst_arrs i with
  | Some a => [Imshow V i a cmap vmin vmax; Colorbar V i enu]
  | None => []
  end.

(** The events of the drawing stage for a layer type: no message, no
    release, every image with the colormap and bounds of the layer
    type, every title one of its titles. *)
Definition drawn (lay_type : string) (title : list string) (ev : event V)
  : Prop :=
  match ev with
  | Printed _ _ | Close _ => False
  | Imshow _ _ _ cmap vmin vmax =>
      let '(lo, hi, c, _, _) := layer_options lay_type title in
      cmap = c /\ vmin = lo /\ vmax = hi
  | SetTitle _ _ t =>
      let '(_, _, _, ts, _) := layer_options lay_type title in In t ts
  | _ => True
  end.

(** The titles the plotting loop reads: three for ['ENU'], else the
    last component of the layer type. *)
Definition final_title (lay_type : string) : list string :=
  if String.eqb lay_type "ENU" then ["East"; "North"; "Up"]
  else [basename lay_type].

(** The band with a failing no-data query replaced by one that reports
    no no-data value. *)
Definition assume_no_value (b : Band V) : Band V :=
  if fails b
  then {| ReadAsArray := ReadAsArray b; GetNoDataValue := inr None |}
  else b.

Definition without_failures (ds : Dataset V) : Dataset V :=
  {| bands := map assume_no_value (bands ds) |}.

End Raster.

(** More sample rasters. *)
Module Sample.

Definition three_bands : Dataset Z :=
  {| bands := [Sem.Sample.band; Sem.Sample.band_failing; Sem.Sample.band] |}.

(** A connected-components layer of another size than the phase. *)
Definition short_components : Band Z :=
  {| ReadAsArray := [0; 1]%Z; GetNoDataValue := inr None |}.

Definition mismatched : Product Z :=
  {| unwrappedPhase := Sem.Sample.band;
     connectedComponents := short_components |}.

Definition unanswered : Product Z :=
  {| unwrappedPhase := Sem.Sample.band_failing;
     connectedComponents := Sem.Sample.components |}.

End Sample.

End Runs.

(** *** Variables read after they were set to [None] *)

Module Lifetime.

(** The variables an expression takes an attribute or an element of. *)
Definition derefs (e : expr) : list string :=
  flat_map (fun s => match s with
                     | EAttr (EName x) _ | EIndex (EName x) _ => [x]
                     | _ => []
                     end) (subexprs e).

Definition union (a b : list string) : list string :=
  a ++ Names.without a b.

(** One statement: the variables it dereferences while they may be
    [None], and the variables that may be [None] after it.  Both
    branches of an [if] count; a loop body counts for a first and for a
    later turn; a handler may start anywhere in its [try]. *)
Fixpoint check (s : stmt) (none : list string) {struct s}
  : list string * list string :=
  let block :=
    fix block (b : list stmt) (none : list string) {struct b}
      : list string * list string :=
      match b with
      | [] => ([], none)
      | x :: r =>
          let (v1, n1) := check x none in
          let (v2, n2) := block r n1 in
          (v1 ++ v2, n2)
      end in
  let here :=
    filter (fun x => str_in x none) (flat_map derefs (own_exprs s)) in
  match s with
  | SAssign ts ENone => (here, union ts none)
  | SAssign ts _ => (here, Names.without ts none)
  | SImport bs => ([], Names.without (map snd bs) none)
  | SDef f _ _ _ => (here, Names.without [f] none)
  | SIf _ t e =>
      let (v1, n1) := block t none in
      let (v2, n2) := block e none in
      (here ++ v1 ++ v2, union n1 n2)
  | SFor ts _ b =>
      let start := Names.without ts none in
      let (v1, n1) := block b start in
      let (v2, n2) := block b (union start n1) in
      (here ++ v1 ++ v2, union none (union n1 n2))
  | SWhile _ b =>
      let (v1, n1) := block b none in
      let (v2, n2) := block b (union none n1) in
      (here ++ v1 ++ v2, union none (union n1 n2))
  | STry b h =>
      let (v1, n1) := block b none in
      let (v2, n2) := block h (union none n1) in
      (v1 ++ v2, union n1 n2)
  | _ => (here, none)
  end.

Fixpoint check_block (b : list stmt) (none : list string)
  : list string * list string :=
  match b with
  | [] => ([], none)
  | x :: r =>
      let (v1, n1) := check x none in
      let (v2, n2) := check_block r n1 in
      (v1 ++ v2, n2)
  end.

(** Run the cells in order: the line of each cell that dereferences a
    variable set to [None], with the variable. *)
Fixpoint scan_cells (cs : list cell) (none : list string)
  : list (nat * string) :=
  match cs with
  | [] => []
  | c :: r =>
      let (v, n) := check_block (code c) none in
      map (fun x => (cell_line c, x)) v ++ scan_cells r n
  end.

Definition use_after_release (cs : list cell) : list (nat * string) :=
  scan_cells cs [].

End Lifetime.

(** *** Parameters a function never reads *)

Module Params.

(** For a name and a statement: whether the statement may read the
    name before assigning it, and whether it surely assigns it.  Either
    branch of an [if] may run; a loop body and a [try] body may be left
    before they assign. *)
Fixpoint access (x : string) (s : stmt) {struct s} : bool * bool :=
  let block :=
    fix block (b : list stmt) {struct b} : bool * bool :=
      match b with
      | [] => (false, false)
      | y :: r =>
          let (rd, wr) := access x y in
          if rd then (true, false)
          else if wr then (false, true)
          else block r
      end in
  let here := str_in x (flat_map Names.reads (own_exprs s)) in
  match s with
  | SImport bs => (false, str_in x (map snd bs))
  | SAssign ts _ => (here, str_in x ts)
  | SShell _ ws =>
      (existsb (fun w => match w with
                         | Interp y => String.eqb x y
                         | Lit _ => false
                         end) ws, false)
  | SIf _ t e =>
      let (r1, w1) := block t in
      let (r2, w2) := block e in
      (here || r1 || r2, w1 && w2)
  | SFor ts _ b =>
      (here || (negb (str_in x ts) && fst (block b)), false)
  | SWhile _ b => (here || fst (block b), false)
  | STry b h => (fst (block b) || fst (block h), false)
  | SDef f _ _ _ => (here, String.eqb x f)
  | _ => (here, false)
  end.

Fixpoint read_before_write (x : string) (b : list stmt) : bool :=
  match b with
  | [] => false
  | y :: r =>
      let (rd, wr) := access x y in
      if rd then true else if wr then false else read_before_write x r
  end.

(** The parameters of a function whose value at the call is never
    read: the body assigns them first or does not mention them. *)
Definition ignored_parameters (s : stmt) : list string :=
  match s with
  | SDef _ ps kw b =>
      filter (fun x => negb (read_before_write x b))
             (map fst ps ++ match kw with Some k => [k] | None => [] end)
  | _ => []
  end.

End Params.

(** *** The numbered sections of the GDAL notebook *)

Module Sections.
Import GdalBasicsNb.

(** Prep A and Prep B. *)
Definition prep : list cell := [setup_cell; download_cell].

(** Sections 1 to 4, by their headings. *)
Definition section1 : list cell := [open_cell; info_cell; gdalinfo_cell].
Definition section2 : list cell :=
  [sub_open_cell; stats_cell; gdalinfo_sub_cell; gdalinfo_stats_cell;
   srsinfo_cell].
Definition section3 : list cell :=
  [load_cell; corner_cell; masking_cell; map_cell].
Definition section4 : list cell :=
  [kmz_cell; kmz_crop_cell; kmz_cli_cell; kmz_crop_cli_cell].

Definition sections : list (list cell) :=
  [section1; section2; section3; section4].

(** A session: the preparation, then the sections in some order. *)
Definition session (order : list (list cell)) : list cell :=
  prep ++ concat order.

(** In the session every name read is bound, and no variable is
    dereferenced after it was set to [None]. *)
Definition runs_clean (order : list (list cell)) : bool :=
  match Names.unbound (Notebook "session" (session order)),
        Lifetime.use_after_release (session order) with
  | [], [] => true
  | _, _ => false
  end.

(** Every way to put [x] into a list, and every order of a list. *)
Fixpoint inserts {A} (x : A) (l : list A) : list (list A) :=
  match l with
  | [] => [[x]]
  | y :: r => (x :: y :: r) :: map (cons y) (inserts x r)
  end.

Fixpoint orders {A} (l : list A) : list (list A) :=
  match l with
  | [] => [[]]
  | x :: r => flat_map (inserts x) (orders r)
  end.

End Sections.

(** *** What the cells compute themselves *)

Module Computation.

(** The control flow a statement is. *)
Definition stmt_tag (s : stmt) : list string :=
  match s with
  | SIf _ _ _ => ["if"]
  | SFor _ _ _ => ["for"]
  | SWhile _ _ => ["while"]
  | STry _ _ => ["try"]
  | SRaise _ => ["raise"]
  | SDef _ _ _ _ => ["def"]
  | _ => []
  end.

(** The operator an expression applies itself: a binary operator by
    its symbol, [not], a conditional expression, a lambda.  Calls,
    attribute and element access and literals are not operators. *)
Definition expr_tag (e : expr) : list string :=
  match e with
  | EBinOp op _ _ => [op]
  | ENot _ => ["not"]
  | EIfExp _ _ _ => ["if-else"]
  | ELambda _ _ => ["lambda"]
  | _ => []
  end.

(** Everything a block does that is not a call, an assignment, an
    import or a shell line: its control flow and its operators, at any
    depth. *)
Definition own_computation (b : list stmt) : list string :=
  Names.dedup (flat_map stmt_tag (flatten_block b)
               ++ flat_map expr_tag (block_exprs b)).

(** The cells of a notebook that compute something themselves, each
    with its line and what it uses. *)
Definition computing_cells (n : notebook) : list (nat * list string) :=
  flat_map (fun c => match own_computation (code c) with
                     | [] => []
                     | tags => [(cell_line c, tags)]
                     end) (cells n).

(** The functions called by their plain name. *)
Definition plain_callees (n : notebook) : list string :=
  Names.dedup
    (flat_map (fun e => match e with
                        | ECall (EName f) _ _ => [f]
                        | _ => []
                        end) (block_exprs (flat_map code (cells n)))).

(** A plain callee is known: a built-in, a name the notebook imports,
    or a function the notebook defines. *)
Definition known_callee (n : notebook) (f : string) : bool :=
  str_in f Names.builtins || str_in f (Names.imported n)
  || str_in f (Names.defined_functions n).

(** The leftmost operand of a chain of binary operators. *)
Fixpoint leftmost (e : expr) : expr :=
  match e with
  | EBinOp _ l _ => leftmost l
  | _ => e
  end.

(** A [+] whose chain starts at a string literal joins strings. *)
Definition joins_strings (e : expr) : bool :=
  match e with
  | EBinOp op l _ =>
      String.eqb op "+"
      && match leftmost l with EStr _ => true | _ => false end
  | _ => false
  end.

(** The arithmetic operator an expression applies: [+] on other than
    strings, [*], [/]. *)
Definition arith_tag (e : expr) : list string :=
  match e with
  | EBinOp op _ _ =>
      if (String.eqb op "+" && negb (joins_strings e))
         || String.eqb op "*" || String.eqb op "/"
      then [op] else []
  | _ => []
  end.

(** Every use of arithmetic in a block, with the variables the
    statement assigns. *)
Definition arithmetic (b : list stmt) : list (list string * string) :=
  flat_map (fun s =>
              map (fun op => (match s with SAssign ts _ => ts | _ => [] end,
                              op))
                  (flat_map arith_tag (flat_map subexprs (own_exprs s))))
           (flatten_block b).

(** The cells of a notebook that join strings with [+], each with the
    string literals joined. *)
Definition joining_cells (n : notebook) : list (nat * list string) :=
  flat_map (fun c =>
              match flat_map (fun e =>
                                if joins_strings e
                                then match e with
                                     | EBinOp _ (EStr l) _ => [l]
                                     | EBinOp _ _ (EStr r) => [r]
                                     | _ => []
                                     end
                                else [])
                             (block_exprs (code c)) with
              | [] => []
              | l => [(cell_line c, l)]
              end) (cells n).

End Computation.

(** *** State outside the variables of the session *)

Module Globals.

(** Library calls that set state of the whole Python process, with the
    state they set, and those that read it.  Files and directories are
    not state of the process and are not followed here. *)
Definition process_setters : list (list string * string) :=
  [ (["os"; "chdir"], "working directory");
    (["gdal"; "UseExceptions"], "GDAL error mode") ].

Definition process_getters : list (list string * string) :=
  [ (["os"; "getcwd"], "working directory") ].

Fixpoint setter_of (p : list string) (t : list (list string * string))
  : option string :=
  match t with
  | [] => None
  | (q, what) :: r => if path_eqb p q then Some what else setter_of p r
  end.

(** The state the calls of a block touch, by a table of calls. *)
Definition touched (t : list (list string * string)) (b : list stmt)
  : list string :=
  flat_map (fun e => match e with
                     | ECall f _ _ =>
                         match dotted f with
                         | Some p => match setter_of p t with
                                     | Some what => [what]
                                     | None => []
                                     end
                         | None => []
                         end
                     | _ => []
                     end) (block_exprs b).

(** The process-wide settings a block makes, and those it reads. *)
Definition settings (b : list stmt) : list string :=
  touched process_setters b.

Definition readings (b : list stmt) : list string :=
  touched process_getters b.

(** An expression that names an object of a module: a path of at least
    two attributes below an imported name, as [plt.cm.Greys_r]. *)
Definition shared_object (imports : list string) (e : expr)
  : option (list string) :=
  match dotted e with
  | Some (m :: a :: b :: r) =>
      if str_in m imports then Some (m :: a :: b :: r) else None
  | _ => None
  end.

Definition aliases := list (string * list string).

(** One statement: the methods it calls for their effect on an object
    of a module held in a variable, and the variables that hold such
    an object after it. *)
Fixpoint mutate (imports : list string) (s : stmt) (g : aliases) {struct s}
  : list (list string * string) * aliases :=
  let block :=
    fix block (b : list stmt) (g : aliases) {struct b}
      : list (list string * string) * aliases :=
      match b with
      | [] => ([], g)
      | x :: r =>
          let (m1, g1) := mutate imports x g in
          let (m2, g2) := block r g1 in
          (m1 ++ m2, g2)
      end in
  match s with
  | SAssign [x] e =>
      match shared_object imports e with
      | Some p => ([], (x, p) :: Provenance.drop [x] g)
      | None => ([], Provenance.drop [x] g)
      end
  | SAssign ts _ => ([], Provenance.drop ts g)
  | SExpr (ECall (EAttr (EName x) m) _ _) =>
      match Provenance.lookup x g with
      | Some p => ([(p, m)], g)
      | None => ([], g)
      end
  | SIf _ t e =>
      let (m1, g1) := block t g in
      let (m2, g2) := block e g1 in
      (m1 ++ m2, g2)
  | SFor ts _ b => block b (Provenance.drop ts g)
  | SWhile _ b => block b g
  | STry b h =>
      let (m1, g1) := block b g in
      let (m2, g2) := block h g1 in
      (m1 ++ m2, g2)
  | SDef _ ps kw b =>
      let locals :=
        map fst ps ++ match kw with Some k => [k] | None => [] end in
      (fst (block b (Provenance.drop locals g)), g)
  | _ => ([], g)
  end.

Fixpoint mutate_block (imports : list string) (b : list stmt) (g : aliases)
  : list (list string * string) * aliases :=
  match b with
  | [] => ([], g)
  | x :: r =>
      let (m1, g1) := mutate imports x g in
      let (m2, g2) := mutate_block imports r g1 in
      (m1 ++ m2, g2)
  end.

(** What a cell does to state outside the session's variables. *)
Record effects : Type := Effects {
  reads : list string;
  sets : list string;
  mutates : list (list string * string)
}.

Definition no_effects (e : effects) : bool :=
  match reads e, sets e, mutates e with
  | [], [], [] => true
  | _, _, _ => false
  end.

(** The effects of the cells of a notebook in order, by line; cells
    without effects are left out. *)
Fixpoint scan (imports : list string) (cs : list cell) (g : aliases)
  : list (nat * effects) :=
  match cs with
  | [] => []
  | c :: r =>
      let (m, g') := mutate_block imports (code c) g in
      let e := Effects (readings (code c)) (settings (code c)) m in
      (if no_effects e then [] else [(cell_line c, e)])
      ++ scan imports r g'
  end.



End Globals.

(* ===================================================================== *)
(** ** Facts about the model of [plot_layer] and the masking cell *)
(* ===================================================================== *)

Module SemFacts.
Import Sem.

Section Raster.
Variable V : Type.
Variable gt_1e20 : V -> bool.
Variable eqv : V -> V -> bool.

Local Abbreviation M := (Sem.M V).
Local Abbreviation masked := (Sem.masked V).

(** The result and the events of a sequence. *)
Lemma bind_snd {A B} (m : M A) (k : A -> M B) :
  snd (bind V m k) =
  match snd m with
  | inl e => inl e
  | inr a => snd (k a)
  end.
Proof.
  destruct m as [l [e | a]]; simpl; [reflexivity |].
  destruct (k a); reflexivity.
Qed.

Lemma bind_fst {A B} (m : M A) (k : A -> M B) :
  fst (bind V m k) =
  fst m ++ match snd m with
           | inl _ => []
           | inr a => fst (k a)
           end.
Proof.
  destruct m as [l [e | a]]; simpl; [now rewrite app_nil_r |].
  destruct (k a); reflexivity.
Qed.

Lemma bind_ret {A B} (a : A) (k : A -> M B) : bind V (ret V a) k = k a.
Proof. unfold bind, ret. destruct (k a); reflexivity. Qed.

Lemma bind_events {A B} (l : list (event V)) (a : A) (k : A -> M B) :
  bind V (l, inr a) k = (l ++ fst (k a), snd (k a)).
Proof. unfold bind. destruct (k a); reflexivity. Qed.

(** *** Masks *)

Lemma lor_map (f g : V -> bool) (a : list V) :
  lor (map f a) (map g a) = map (fun v => f v || g v) a.
Proof.
  unfold lor. induction a as [| v a IH]; simpl; [reflexivity |].
  now rewrite IH.
Qed.

Lemma masked_where_map (f : V -> bool) (a : list V) :
  masked_where V (map f a) a = inr (Masked V a (map f a) None).
Proof.
  unfold masked_where. now rewrite length_map, Nat.eqb_refl.
Qed.

Lemma read_band_eq (b : Band V) :
  read_band V gt_1e20 eqv b = (band_events V b, inr (masked_band V gt_1e20 eqv b)).
Proof.
  unfold read_band, masked_band, band_events, lift, emit.
  destruct (GetNoDataValue b) as [e | NoData]; simpl.
  - now rewrite masked_where_map.
  - now rewrite lor_map, masked_where_map.
Qed.

Lemma skipn_cons_nth {A} (l : list A) :
  forall k x r, skipn k l = x :: r ->
                nth_error l k = Some x /\ skipn (S k) l = r.
Proof.
  induction l as [| y l IH]; intros [| k] x r H; simpl in *;
    try discriminate.
  - inversion H; subst. split; reflexivity.
  - apply IH in H. destruct l; exact H.
Qed.

(** The band loop reads the bands left, in order, and never fails. *)
Lemma band_loop_eq (ds : Dataset V) :
  forall rest k acc,
    skipn k (bands ds) = rest ->
    band_loop V gt_1e20 eqv ds (seq k (length rest)) acc =
    (flat_map (band_events V) rest,
     inr (acc ++ map (masked_band V gt_1e20 eqv) rest)).
Proof.
  induction rest as [| b rest IH]; intros k acc H; simpl.
  - now rewrite app_nil_r.
  - apply skipn_cons_nth in H. destruct H as [Hk Hr].
    rewrite Nat.add_1_r. unfold GetRasterBand. rewrite Hk.
    rewrite bind_ret, read_band_eq, bind_events.
    rewrite (IH (S k) (acc ++ [masked_band V gt_1e20 eqv b]) Hr). simpl.
    now rewrite <- app_assoc.
Qed.

Lemma read_bands_eq (ds : Dataset V) :
  read_bands V gt_1e20 eqv ds =
  (flat_map (band_events V) (bands ds),
   inr (map (masked_band V gt_1e20 eqv) (bands ds))).
Proof.
  unfold read_bands, RasterCount.
  now rewrite (band_loop_eq ds (bands ds) 0 [] eq_refl).
Qed.

(** *** Quiet runs *)

Lemma layout_app (l1 l2 : list (event V)) :
  layout V (l1 ++ l2) = layout V l1 ++ layout V l2.
Proof. unfold layout. apply flat_map_app. Qed.

Lemma quiet_bind {A B} (m : M A) (k : A -> M B) :
  quiet V m -> (forall a, quiet V (k a)) -> quiet V (bind V m k).
Proof.
  intros [Hl Hr] Hk. split.
  - rewrite bind_fst, layout_app, Hl. simpl.
    destruct (snd m) as [e | a]; [reflexivity | apply Hk].
  - intros msg. rewrite bind_snd.
    destruct (snd m) as [e | a] eqn:E; [| apply Hk].
    intros X. apply (Hr msg). now inversion X.
Qed.

Lemma quiet_ret {A} (a : A) : quiet V (ret V a).
Proof. split; [reflexivity | discriminate]. Qed.

Lemma quiet_index {A} (l : list A) (i : nat) : quiet V (index V l i).
Proof.
  unfold index. destruct (nth_error l i); split;
    try reflexivity; discriminate.
Qed.

Lemma quiet_emit (ev : event V) :
  (forall r c, ev <> Subplots V r c) -> quiet V (emit V ev).
Proof.
  intros H. split; [| discriminate].
  destruct ev; try reflexivity. now destruct (H nrows ncols).
Qed.

Lemma quiet_plot_loop axes arrs cmap vmin vmax enu title :
  quiet V (plot_loop V axes arrs cmap vmin vmax enu title).
Proof.
  induction axes as [| i rest IH]; cbn [plot_loop]; [apply quiet_ret |].
  apply quiet_bind; [apply quiet_index | intros arr].
  apply quiet_bind; [apply quiet_emit; discriminate | intros _].
  apply quiet_bind; [apply quiet_emit; discriminate | intros _].
  apply quiet_bind; [apply quiet_index | intros t].
  apply quiet_bind; [apply quiet_emit; discriminate | intros _].
  exact IH.
Qed.

Lemma band_events_layout (bs : list (Band V)) :
  layout V (flat_map (band_events V) bs) = [].
Proof.
  induction bs as [| b bs IH]; [reflexivity |].
  simpl. rewrite layout_app, IH, app_nil_r.
  unfold band_events. now destruct (GetNoDataValue b).
Qed.

(** *** The drawing stage *)

(** Four bands or more: the exception of the code, before any grid. *)
Lemma draw_unsupported n lay_type title arrs :
  4 <= n ->
  draw V n lay_type title arrs =
  ([], inl (Exception "Number of bands currently unsupported")).
Proof.
  intros H. unfold draw.
  now rewrite (proj2 (Nat.ltb_ge n 4) H).
Qed.

(** Fewer: the grid of one row and [n] columns, then a quiet rest. *)
Lemma draw_supported n lay_type title arrs :
  n < 4 ->
  exists rest : M unit,
    quiet V rest /\
    draw V n lay_type title arrs = (Subplots V 1 n :: fst rest, snd rest).
Proof.
  intros H. unfold draw.
  rewrite (proj2 (Nat.ltb_lt n 4) H), bind_ret.
  unfold emit at 1. rewrite bind_events.
  eexists. split; [| reflexivity].
  apply quiet_bind.
  - destruct (Nat.eqb n 0); [split; [reflexivity | discriminate] |].
    apply quiet_ret.
  - intros axe.
    destruct (layer_options lay_type title) as [[[[vmin vmax] cmap] t] adj].
    apply quiet_bind.
    { destruct adj; [apply quiet_emit; discriminate | apply quiet_ret]. }
    intros _. apply quiet_bind; [apply quiet_plot_loop |].
    intros _. apply quiet_bind; [apply quiet_index |].
    intros y. apply quiet_bind; [apply quiet_emit; discriminate |].
    intros _. apply quiet_bind; [apply quiet_index |].
    intros x. apply quiet_emit; discriminate.
Qed.

(** [plot_layer] on a path that opens: the band loop, the release of
    the dataset, the drawing stage on the arrays of the bands. *)
Lemma plot_layer_eq gdal_Open path_layer lay_type ds :
  gdal_Open path_layer = Some ds ->
  let lt := layer_type path_layer lay_type in
  let d := draw V (RasterCount V ds) lt [basename lt]
                (map (masked_band V gt_1e20 eqv) (bands ds)) in
  plot_layer V gt_1e20 eqv gdal_Open path_layer lay_type =
  (flat_map (band_events V) (bands ds) ++ Close V :: fst d, snd d).
Proof.
  intros H lt d. unfold plot_layer. rewrite H, bind_ret.
  rewrite read_bands_eq, bind_events.
  unfold emit. rewrite bind_events. simpl. reflexivity.
Qed.

(** *** Element-wise facts *)

Lemma nth_error_lor (a : list bool) :
  forall b i x y,
    nth_error a i = Some x -> nth_error b i = Some y ->
    nth_error (lor a b) i = Some (x || y).
Proof.
  unfold lor.
  induction a as [| u a IH]; intros [| w b] [| i] x y Ha Hb;
    simpl in *; try discriminate.
  - now inversion Ha; inversion Hb.
  - now apply IH.
Qed.

Lemma length_lor (a b : list bool) :
  length (lor a b) = Nat.min (length a) (length b).
Proof. unfold lor. now rewrite length_map, length_combine. Qed.

Lemma masked_band_pixel (b : Band V) j v :
  nth_error (ReadAsArray b) j = Some v ->
  nth_error (mask (masked_band V gt_1e20 eqv b)) j =
  Some (gt_1e20 v
        || match GetNoDataValue b with
           | inr NoData => eq_nodata V eqv v NoData
           | inl _ => false
           end).
Proof.
  intros H. unfold masked_band.
  destruct (GetNoDataValue b) as [e | NoData]; simpl.
  - rewrite orb_false_r. now apply map_nth_error.
  - now apply (map_nth_error (fun v => gt_1e20 v || eq_nodata V eqv v NoData)).
Qed.

Lemma masked_band_shape (b : Band V) :
  data (masked_band V gt_1e20 eqv b) = ReadAsArray b
  /\ length (mask (masked_band V gt_1e20 eqv b)) = length (ReadAsArray b).
Proof.
  unfold masked_band.
  destruct (GetNoDataValue b); simpl; now rewrite length_map.
Qed.

(** *** The masking cell *)

(** C10: when the no-data query answers and both layers have as many
    pixels, the masking cell gives a masked array with the data read
    from the unwrappedPhase band, fill value 999999, and a mask set
    exactly where the pixel equals the no-data value or the connected
    component is 0. *)
Theorem masking_cell_mask (p : Product V) NDV :
  GetNoDataValue (unwrappedPhase V p) = inr NDV ->
  length (ReadAsArray (connectedComponents V p)) =
  length (ReadAsArray (unwrappedPhase V p)) ->
  exists m,
    masking_cell V eqv p = inr m
    /\ data m = ReadAsArray (unwrappedPhase V p)
    /\ fill_value m = Some 999999%Z
    /\ length (mask m) = length (data m)
    /\ forall i v c,
         nth_error (ReadAsArray (unwrappedPhase V p)) i = Some v ->
         nth_error (ReadAsArray (connectedComponents V p)) i = Some c ->
         nth_error (mask m) i = Some (eq_nodata V eqv v NDV || (c =? 0)%Z).
Proof.
  intros Hnd Hlen. unfold masking_cell. rewrite Hnd.
  set (unw := ReadAsArray (unwrappedPhase V p)) in *.
  set (cc := ReadAsArray (connectedComponents V p)) in *.
  unfold masked_array, plain. cbn [data mask].
  rewrite length_map, Nat.eqb_refl. cbn [data mask].
  rewrite length_map, Hlen, Nat.eqb_refl.
  eexists. split; [reflexivity |]. cbn [data mask fill_value].
  split; [reflexivity |]. split; [reflexivity |].
  split.
  - rewrite !length_lor, !length_map, repeat_length, Hlen. lia.
  - intros i v c Hv Hc.
    rewrite (nth_error_lor _ _ i (c =? 0)%Z (eq_nodata V eqv v NDV || false)).
    + now rewrite orb_false_r, orb_comm.
    + now apply (map_nth_error (fun c => (c =? 0)%Z)).
    + apply nth_error_lor.
      * now apply (map_nth_error (fun v => eq_nodata V eqv v NDV)).
      * apply nth_error_repeat. apply nth_error_Some. now rewrite Hv.
Qed.

End Raster.

(** The property at the sample product. *)

Lemma masking_cell_mask_witness :
  GetNoDataValue (unwrappedPhase Z Sample.product) = inr (Some 0%Z)
  /\ length (ReadAsArray (connectedComponents Z Sample.product)) =
     length (ReadAsArray (unwrappedPhase Z Sample.product))
  /\ exists m,
       masking_cell Z Z.eqb Sample.product = inr m
       /\ data m = ReadAsArray (unwrappedPhase Z Sample.product)
       /\ fill_value m = Some 999999%Z
       /\ length (mask m) = length (data m)
       /\ forall i v c,
            nth_error (ReadAsArray (unwrappedPhase Z Sample.product)) i
            = Some v ->
            nth_error (ReadAsArray (connectedComponents Z Sample.product)) i
            = Some c ->
            nth_error (mask m) i
            = Some (eq_nodata Z Z.eqb v (Some 0%Z) || (c =? 0)%Z).
Proof.
  split; [reflexivity |]. split; [reflexivity |].
  apply (masking_cell_mask Z Z.eqb Sample.product (Some 0%Z));
    reflexivity.
Defined.

(** The runs of the samples, evaluated. *)

Example masking_cell_sample :
  masking_cell Z Z.eqb Sample.product =
  inr (Masked Z Sample.pixels [true; true; false; false] (Some 999999%Z)).
Proof. reflexivity. Qed.

Example plot_layer_four_bands :
  plot_layer Z Sample.gt_1e20 Z.eqb (Sample.opening Sample.four_bands)
             "figures/avgcoherence.vrt" (Some "coherence") =
  ([Printed Z "Could not find a no-data value..."; Close Z],
   inl (Exception "Number of bands currently unsupported")).
Proof. reflexivity. Qed.

Example plot_layer_two_bands_titles :
  snd (plot_layer Z Sample.gt_1e20 Z.eqb (Sample.opening Sample.two_bands)
                  "figures/avgcoherence.vrt" (Some "coherence"))
  = inl IndexError.
Proof. reflexivity. Qed.

Example plot_layer_one_band :
  plot_layer Z Sample.gt_1e20 Z.eqb (Sample.opening Sample.one_band)
             "figures/avgcoherence.vrt" (Some "coherence") =
  ([ Close Z; Subplots Z 1 1;
     Imshow Z 0 (Masked Z Sample.pixels [false; true; false; true] None)
            "Greys_r" (Some 0%Z) (Some 1%Z);
     Colorbar Z 0 false; SetTitle Z 0 "coherence"; SetYLabel Z 0;
     SetXLabel Z 0 ],
   inr tt).
Proof. reflexivity. Qed.

End SemFacts.

(* ===================================================================== *)
(** ** Facts about the cells *)
(* ===================================================================== *)

Module CellFacts.

(** *** Error handling *)

(** C1, as stated, fails: the cell that defines [plot_layer] holds a
    [try] and a [raise]. *)
Lemma some_cell_handles_errors :
  ~ (forall c, In c all_cells -> ErrorHandling.no_error_handling c = true).
Proof.
  intros H.
  assert (X : In AriaPlotNb.setup_cell all_cells) by (vm_compute; tauto).
  apply H in X. vm_compute in X. discriminate.
Qed.

(** C1, amended: the cell that defines [plot_layer] is the only one
    with a [try] or a [raise]; it has one handler, a bare [except]
    around the no-data query that prints and masks the pixels above
    1e20, and one [raise], of 'Number of bands currently unsupported';
    no cell has a [while] loop. *)
Theorem error_handling_only_in_plot_layer :
  ErrorHandling.error_handling_cells notebooks = [("ariaPlot_tutorial", 63)]
  /\ ErrorHandling.handlers (code AriaPlotNb.setup_cell) =
     [ STry
         [ set1 "NoData" (meth (EName "raster") "GetNoDataValue" []);
           set1 "arr"
             (call (qual2 "np" "ma" "masked_where")
                [EBinOp "|" (EBinOp ">" (EName "arr") (ENum "1e20"))
                            (EBinOp "==" (EName "arr") (EName "NoData"));
                 EName "arr"]) ]
         [ py_print [EStr "Could not find a no-data value..."];
           set1 "arr"
             (call (qual2 "np" "ma" "masked_where")
                [EBinOp ">" (EName "arr") (ENum "1e20"); EName "arr"]) ] ]
  /\ ErrorHandling.raises (code AriaPlotNb.setup_cell) =
     [ SRaise (call (EName "Exception")
                 [EStr "Number of bands currently unsupported"]) ]
  /\ ErrorHandling.while_loops (flat_map code all_cells) = [].
Proof. repeat split; reflexivity. Qed.

(** *** Kinds of cells *)

(** C2, as stated, fails on both counts: the cell at line 293 of the
    ariaPlot notebook is [!ls products] and nothing else, so it is of
    none of the three kinds; and cells do compute themselves: the
    corner cell of the GDAL notebook adds and multiplies. *)
Lemma cells_beyond_the_kinds :
  ~ (forall n line kinds,
       In n notebooks ->
       In (line, kinds) (Provenance.classify_nb Provenance.cli_programs n) ->
       kinds <> [])
  /\ ~ (forall c, In c all_cells -> Computation.own_computation (code c) = []).
Proof.
  split; intros H.
  - apply (H AriaPlotNb.nb 293 []); [| | reflexivity]; vm_compute; tauto.
  - assert (X : In GdalBasicsNb.corner_cell all_cells) by (vm_compute; tauto).
    apply H in X. vm_compute in X. discriminate.
Qed.

(** C2, amended: with [ls] and [head] counted among the programs, every
    code cell calls into the geospatial library, shells out to one of
    the programs, or calls into a charting library; without them the
    cells of no kind are three, one line of [ls] or [head] each.  The
    calls of the cells go into [os], [osgeo], [numpy], [matplotlib],
    [mpl_toolkits] and [cartopy], and [plot_layer] is the one function
    the notebooks define.  What the cells compute themselves, calls and
    assignments apart, is listed cell by cell: the control flow and
    the operators of [plot_layer]; [if not] in the setup cell; [+] on
    strings for the sub-dataset paths; [+] and [*] for the lower-right
    corner; [==] for the masks.  No cell of the download notebook
    computes anything.  The functions called by a plain name are
    built-ins, imported names and [plot_layer].  Arithmetic occurs in
    [extent], in the band number, in the index of the middle axis and
    in the two corner coordinates, and nowhere else; every other [+]
    joins the strings of a sub-dataset path. *)
Theorem cell_kinds_and_computation :
  map (Provenance.unclassified (Provenance.cli_programs ++ ["ls"; "head"]))
      notebooks = [[]; []; []]
  /\ map Names.packages_called notebooks =
     [ ["os"; "osgeo"; "numpy"; "matplotlib"; "mpl_toolkits"];
       ["os"; "osgeo"; "numpy"; "cartopy"; "matplotlib"]; [] ]
  /\ map Names.defined_functions notebooks = [["plot_layer"]; []; []]
  /\ map (Provenance.unclassified Provenance.cli_programs) notebooks =
     [[293; 511]; []; [1137]]
  /\ code AriaPlotNb.ls_products_cell = [SShell "ls" [Lit "products"]]
  /\ code AriaPlotNb.ls_figures_cell = [SShell "ls" [Lit "figures"]]
  /\ nth_error (cells AriaDownloadNb.nb) 3 =
     Some (Cell 1137
             [SShell "head"
                [Lit "-n"; Lit "10";
                 Lit "products/download_products_4track_0.txt"]])
  /\ map Computation.computing_cells notebooks =
     [ [ (63, ["def"; "if"; "for"; "try"; "raise"; "not"; "+"; "*"; "|"; ">";
               "=="; "<"; "if-else"; "or"; "lambda"; "/"]) ];
       [ (58, ["if"; "not"]); (357, ["+"]); (563, ["+"]); (591, ["+"; "*"]);
         (651, ["+"; "=="]); (788, ["+"]); (830, ["+"]) ];
       [] ]
  /\ Computation.own_computation AriaPlotNb.plot_layer_body =
     [ "if"; "for"; "try"; "raise"; "not"; "+"; "*"; "|"; ">"; "=="; "<";
       "if-else"; "or"; "lambda"; "/" ]
  /\ map Computation.plain_callees notebooks =
     [ ["range"; "print"; "Exception"; "isinstance"; "enumerate";
        "make_axes_locatable"; "FuncFormatter"; "int"; "plot_layer"];
       ["print"; "LongitudeFormatter"; "LatitudeFormatter"]; [] ]
  /\ map (fun n => forallb (Computation.known_callee n)
                           (Computation.plain_callees n)) notebooks =
     [true; true; true]
  /\ map (fun n => Computation.arithmetic (flat_map code (cells n)))
         notebooks =
     [ [ (["extent"], "+"); (["extent"], "*"); (["extent"], "+");
         (["extent"], "*"); (["raster"], "+"); ([], "/") ];
       [ (["lrLon"], "+"); (["lrLon"], "*"); (["lrLat"], "+");
         (["lrLat"], "*") ];
       [] ]
  /\ map Computation.joining_cells notebooks =
     [ [];
       [ (357, [":/science/grids/data/unwrappedPhase"; "NETCDF:"]);
         (563, [":/science/grids/data/unwrappedPhase"; "NETCDF:"]);
         (651, [":/science/grids/data/connectedComponents"; "NETCDF:"]);
         (788, [":/science/grids/data/unwrappedPhase"; "NETCDF:"]);
         (830, [":/science/grids/data/unwrappedPhase"; "NETCDF:"]) ];
       [] ].
Proof. repeat split; reflexivity. Qed.

(** *** Dataset handles *)

(** C3 fails on the code: when every cell of the GDAL notebook has run,
    [kmzFile] and [kmzFileCrop] still hold the datasets [gdal.Translate]
    returned, while every handle from [gdal.Open] has been set to
    [None], in the notebooks and in [plot_layer]. *)
Theorem translate_handles_left_open :
  Handles.unreleased GdalBasicsNb.nb =
  [("kmzFileCrop", "gdal.Translate"); ("kmzFile", "gdal.Translate")]
  /\ Handles.unreleased AriaPlotNb.nb = []
  /\ Handles.unreleased AriaDownloadNb.nb = []
  /\ Handles.track_block AriaPlotNb.plot_layer_body [] = []
  /\ Handles.opened AriaPlotNb.plot_layer_body = [("ds", "gdal.Open")]
  /\ Handles.opened (flat_map code (cells GdalBasicsNb.nb)) =
     [ ("ds", "gdal.Open"); ("unwPhase", "gdal.Open");
       ("unwPhase", "gdal.Open"); ("connComp", "gdal.Open");
       ("unwPhase", "gdal.Open"); ("kmzFile", "gdal.Translate");
       ("unwPhase", "gdal.Open"); ("kmzFileCrop", "gdal.Translate") ].
Proof. repeat split; reflexivity. Qed.

(** *** Command lines of [ariaDownload.py] *)

(** C4, as stated, fails: the download of the ariaPlot notebook passes
    [-t] and [-e], which the usage line does not spell. *)
Lemma some_download_uses_short_options :
  ~ (forall args,
       In args CommandLine.ariaDownload_invocations ->
       CommandLine.uses_only CommandLine.usage_line_options args = true
       /\ forallb CommandLine.is_choice (CommandLine.output_values args) = true).
Proof.
  intros H.
  destruct (H (lits ["-t"; "42"; "-e"; "20160101"; "--bbox";
                     "37.25 38.1 -122.6 -121.75"])) as [X _].
  - vm_compute. tauto.
  - vm_compute in X. discriminate.
Qed.

(** C4, amended: the fourteen invocations pass only the options of the
    usage line or their other spellings [-t], [-b], [-s], [-e], [-l],
    [-m], [--verbose]; every value of [-o] or [--output] is one of
    download, count, kmz, url. *)
Theorem downloads_use_known_options :
  length CommandLine.ariaDownload_invocations = 14
  /\ forallb (CommandLine.uses_only CommandLine.used_options)
             CommandLine.ariaDownload_invocations = true
  /\ forallb CommandLine.is_choice
             (flat_map CommandLine.output_values
                       CommandLine.ariaDownload_invocations) = true
  /\ map (CommandLine.uses_only CommandLine.usage_line_options)
         CommandLine.ariaDownload_invocations =
     [ false; true; true; true; true; true; true; true; true; false; true;
       true; false; false ].
Proof. repeat split; reflexivity. Qed.

(** *** KMZ exports *)

Lemma kmz_exports_count : length Kmz.exports = 4.
Proof. reflexivity. Qed.

(** C5: every KMZ export, by [gdal_translate] or by [gdal.Translate],
    has the options [-of KMLSUPEROVERLAY -scale -co format=png], alone
    or followed by [-projwin] and four numbers, and an output file whose
    name ends in [.kmz]. *)
Theorem kmz_exports_documented (x : option Kmz.export) :
  In x Kmz.exports ->
  exists o out,
    x = Some (Kmz.Export o out)
    /\ (o = Kmz.base_options
        \/ exists w n e s,
             o = Kmz.base_options ++ ["-projwin"; w; n; e; s]
             /\ forallb Kmz.is_number [w; n; e; s] = true)
    /\ Kmz.ends_with ".kmz" out = true.
Proof.
  intros H. vm_compute in H.
  repeat (destruct H as [H | H]; [subst x |]); try contradiction.
  all: eexists; eexists; split; [reflexivity |]; split; [| reflexivity].
  all: first [ left; reflexivity
             | right; do 4 eexists; split; reflexivity ].
Qed.

Lemma kmz_exports_documented_witness :
  exists o out,
    Some (Kmz.Export
            ["-of"; "KMLSUPEROVERLAY"; "-scale"; "-co"; "format=png";
             "-projwin"; "-81.00"; "42.30"; "-80.00"; "41.50"]
            "unwrappedPhaseCrop.kmz") = Some (Kmz.Export o out)
    /\ (o = Kmz.base_options
        \/ exists w n e s,
             o = Kmz.base_options ++ ["-projwin"; w; n; e; s]
             /\ forallb Kmz.is_number [w; n; e; s] = true)
    /\ Kmz.ends_with ".kmz" out = true.
Proof.
  apply (kmz_exports_documented
           (Some (Kmz.Export
                    ["-of"; "KMLSUPEROVERLAY"; "-scale"; "-co"; "format=png";
                     "-projwin"; "-81.00"; "42.30"; "-80.00"; "41.50"]
                    "unwrappedPhaseCrop.kmz"))).
  vm_compute. tauto.
Defined.

(** *** Paths *)

(** C6, as stated, fails: the path of the first [gdal.Open] is
    [fileName], which [os.path.join] builds from the data directory;
    it is not a concatenation of string literals. *)
Lemma opened_path_is_joined :
  ~ (forall e,
       In e Paths.opened_paths ->
       exists p, Paths.literal_value e = Some p /\ In p Paths.fixed_paths).
Proof.
  intros H.
  destruct (H (call (qual2 "os" "path" "join")
                 [call (qual2 "os" "path" "join")
                    [call (qual2 "os" "path" "abspath")
                       [call (qual2 "os" "path" "join")
                          [call (qual "os" "getcwd") []; EStr EmptyString]];
                     EStr "products"];
                  EStr Paths.product])) as [p [X _]].
  - vm_compute. tauto.
  - discriminate X.
Qed.

(** C6, amended: the product file name and the sub-dataset paths occur
    in the code as string literals only.  [fileName] is the product
    file name joined by [os.path.join] to the data directory, itself
    [products] under the absolute working directory; the paths opened
    are [fileName] and ["NETCDF:" + fileName + sub-dataset]; the shell
    lines spell the whole path out. *)
Theorem opened_paths_values (getcwd : string) (abspath : string -> string) :
  let fileName := Paths.fileName getcwd abspath in
  let sub s := Some ("NETCDF:" ++ fileName ++ s)%string in
  map (Paths.eval getcwd abspath) Paths.opened_paths =
  [ Some fileName; sub Paths.unwrappedPhase; sub Paths.unwrappedPhase;
    sub Paths.connectedComponents; sub Paths.unwrappedPhase;
    sub Paths.unwrappedPhase ]
  /\ Paths.python_product_literals =
     [ Paths.product; Paths.unwrappedPhase; Paths.unwrappedPhase;
       Paths.connectedComponents; Paths.unwrappedPhase; Paths.unwrappedPhase ]
  /\ Paths.shell_product_words =
     (let whole := ("NETCDF:./products/" ++ Paths.product
                    ++ Paths.unwrappedPhase)%string in
      [ ("./products/" ++ Paths.product)%string; whole; whole; whole; whole ]).
Proof. repeat split; reflexivity. Qed.

(** In a session started in [/home/user], where [os.path.abspath]
    drops the slash [os.path.join] has just added. *)
Example opened_paths_at_home :
  map (Paths.eval "/home/user" Sem.rstrip_slash) Paths.opened_paths =
  (let f := ("/home/user/products/" ++ Paths.product)%string in
   let unw := Some ("NETCDF:" ++ f ++ Paths.unwrappedPhase)%string in
   [ Some f; unw; unw;
     Some ("NETCDF:" ++ f ++ Paths.connectedComponents)%string; unw; unw ]).
Proof. reflexivity. Qed.

(** *** Names and state *)



End CellFacts.

(* ===================================================================== *)
(** ** More about the runs of [plot_layer] and the masking cell *)
(* ===================================================================== *)

Module RunFacts.
Import Sem Runs SemFacts.

Section Raster.

Variable V : Type.
Variable gt_1e20 : V -> bool.
Variable eqv : V -> V -> bool.

Local Abbreviation M := (Sem.M V).
Local Abbreviation msg := (Printed V "Could not find a no-data value...").

(** *** Events of a sequence *)

Lemma forall_bind {A B} (P : event V -> Prop) (m : M A) (k : A -> M B) :
  Forall P (fst m) -> (forall a, Forall P (fst (k a))) ->
  Forall P (fst (bind V m k)).
Proof.
  intros Hm Hk. rewrite bind_fst. apply Forall_app. split; [exact Hm |].
  destruct (snd m); [constructor | apply Hk].
Qed.

Lemma forall_emit (P : event V -> Prop) (ev : event V) :
  P ev -> Forall P (fst (emit V ev)).
Proof. intros H. repeat constructor. exact H. Qed.

Lemma forall_index {A} (P : event V -> Prop) (l : list A) i :
  Forall P (fst (index V l i)).
Proof. unfold index. destruct (nth_error l i); constructor. Qed.

Lemma bind_emit {B} (ev : event V) (k : unit -> M B) :
  bind V (emit V ev) k = (ev :: fst (k tt), snd (k tt)).
Proof. unfold emit. now rewrite bind_events. Qed.

Lemma index_some {A} (l : list A) i a :
  nth_error l i = Some a -> index V l i = ret V a.
Proof. unfold index. now intros ->. Qed.

Lemma index_none {A} (l : list A) i :
  nth_error l i = None -> index V l i = raise V IndexError.
Proof. unfold index. now intros ->. Qed.

Lemma nth_error_lt {A} (l : list A) i :
  i < length l -> exists a, nth_error l i = Some a.
Proof.
  intros H. destruct (nth_error l i) eqn:E; [eauto |].
  apply nth_error_None in E. lia.
Qed.

(** *** The plotting loop *)

Lemma plot_loop_events (P : event V -> Prop) axes arrs cmap vmin vmax enu title :
  (forall i a, P (Imshow V i a cmap vmin vmax)) ->
  (forall i, P (Colorbar V i enu)) ->
  (forall i t, In t title -> P (SetTitle V i t)) ->
  Forall P (fst (plot_loop V axes arrs cmap vmin vmax enu title)).
Proof.
  intros HI HC HT.
  induction axes as [| i rest IH]; cbn [plot_loop]; [constructor |].
  apply forall_bind; [apply forall_index | intros arr].
  apply forall_bind; [apply forall_emit, HI | intros _].
  apply forall_bind; [apply forall_emit, HC | intros _].
  unfold index at 1. destruct (nth_error title i) as [t |] eqn:E.
  - rewrite bind_ret. apply forall_bind; [| intros _; exact IH].
    apply forall_emit, HT. eapply nth_error_In; eassumption.
  - constructor.
Qed.

Lemma shown_some arrs cmap vmin vmax enu title i a t :
  nth_error arrs i = Some a -> nth_error title i = Some t ->
  shown V arrs cmap vmin vmax enu title i =
  [Imshow V i a cmap vmin vmax; Colorbar V i enu; SetTitle V i t].
Proof. unfold shown. now intros -> ->. Qed.

(** All turns are full while titles last. *)
Lemma plot_loop_complete arrs cmap vmin vmax enu title :
  forall m k,
    k + m <= length arrs -> k + m <= length title ->
    plot_loop V (seq k m) arrs cmap vmin vmax enu title =
    (flat_map (shown V arrs cmap vmin vmax enu title) (seq k m), inr tt).
Proof.
  induction m as [| m IH]; intros k Ha Ht; cbn [seq plot_loop flat_map];
    [reflexivity |].
  destruct (nth_error_lt arrs k) as [a Ea]; [lia |].
  destruct (nth_error_lt title k) as [t Et]; [lia |].
  rewrite (index_some _ _ _ Ea), bind_ret, !bind_emit.
  rewrite (index_some _ _ _ Et), bind_ret, bind_emit.
  rewrite (IH (S k)) by lia. cbn [fst snd].
  now rewrite (shown_some _ _ _ _ _ _ _ _ _ Ea Et).
Qed.

(** The loop stops at the first axis without a title, after its image. *)
Lemma plot_loop_short arrs cmap vmin vmax enu title :
  forall m k,
    k + m <= length arrs -> k <= length title -> length title < k + m ->
    plot_loop V (seq k m) arrs cmap vmin vmax enu title =
    (flat_map (shown V arrs cmap vmin vmax enu title)
              (seq k (length title - k))
     ++ shown_untitled V arrs cmap vmin vmax enu (length title),
     inl IndexError).
Proof.
  induction m as [| m IH]; intros k Ha Hk Ht; [lia |].
  cbn [seq plot_loop].
  destruct (nth_error_lt arrs k) as [a Ea]; [lia |].
  rewrite (index_some _ _ _ Ea), bind_ret, !bind_emit.
  destruct (Nat.eq_dec k (length title)) as [E | E].
  - rewrite index_none by (apply nth_error_None; lia).
    cbn [bind raise fst snd]. rewrite <- E, Nat.sub_diag.
    unfold shown_untitled. now rewrite Ea.
  - destruct (nth_error_lt title k) as [t Et]; [lia |].
    rewrite (index_some _ _ _ Et), bind_ret, bind_emit.
    rewrite (IH (S k)) by lia. cbn [fst snd].
    replace (length title - k) with (S (length title - S k)) by lia.
    cbn [seq flat_map].
    now rewrite (shown_some _ _ _ _ _ _ _ _ _ Ea Et).
Qed.

(** *** Layer options *)

Lemma layer_options_title lay_type title lo hi c t adj :
  layer_options lay_type title = (lo, hi, c, t, adj) ->
  t = (if String.eqb lay_type "ENU" then ["East"; "North"; "Up"] else title)
  /\ adj = String.eqb lay_type "ENU".
Proof.
  destruct (String.eqb lay_type "ENU") eqn:E.
  - apply String.eqb_eq in E. subst lay_type.
    vm_compute. intros H. now inversion H.
  - unfold layer_options. rewrite E.
    repeat match goal with
           | |- context [if ?b then _ else _] => destruct b
           end; intros H; now inversion H.
Qed.

(** *** The drawing stage, event by event *)

Lemma nth_error_seq_lt k n i :
  i < n -> nth_error (seq k n) i = Some (k + i).
Proof.
  revert k i. induction n as [| n IH]; intros k [| i] H; try lia.
  - cbn. now rewrite Nat.add_0_r.
  - cbn [seq nth_error]. rewrite IH by lia. f_equal. lia.
Qed.

Lemma draw_events n lay_type title arrs :
  Forall (drawn V lay_type title) (fst (draw V n lay_type title arrs)).
Proof.
  unfold draw. apply forall_bind.
  { destruct (Nat.ltb n 4); constructor. }
  intros [nrows ncols].
  apply forall_bind; [apply forall_emit; exact I | intros _].
  apply forall_bind; [destruct (Nat.eqb ncols 0); constructor | intros axe].
  destruct (layer_options lay_type title) as [[[[lo hi] c] t] adj] eqn:E.
  apply forall_bind.
  { destruct adj; [apply forall_emit; exact I | constructor]. }
  intros _. apply forall_bind.
  { apply plot_loop_events.
    - intros i a. unfold drawn. rewrite E. auto.
    - intros i. exact I.
    - intros i x Hx. unfold drawn. now rewrite E. }
  intros _. apply forall_bind; [apply forall_index | intros y].
  apply forall_bind; [apply forall_emit; exact I | intros _].
  apply forall_bind; [apply forall_index | intros x].
  apply forall_emit. exact I.
Qed.

(** Enough titles: every band gets its turn, then the labels. *)
Lemma draw_complete n lay_type title arrs lo hi c t adj :
  layer_options lay_type title = (lo, hi, c, t, adj) ->
  1 <= n < 4 -> length arrs = n -> n <= length t ->
  draw V n lay_type title arrs =
  (Subplots V 1 n
     :: (if adj then [SubplotsAdjust V] else [])
     ++ flat_map (shown V arrs c lo hi (String.eqb lay_type "ENU") t) (seq 0 n)
     ++ [SetYLabel V 0; SetXLabel V (n / 2)],
   inr tt).
Proof.
  intros E Hn Ha Ht. unfold draw.
  rewrite (proj2 (Nat.ltb_lt n 4)) by lia. rewrite bind_ret, bind_emit.
  rewrite (proj2 (Nat.eqb_neq n 0)) by lia. rewrite bind_ret, Nat.mul_1_l, E.
  assert (Hy : index V (seq 0 n) 0 = ret V 0).
  { apply index_some. now rewrite nth_error_seq_lt by lia. }
  assert (Hx : index V (seq 0 n) (n / 2) = ret V (n / 2)).
  { apply index_some. rewrite nth_error_seq_lt; [reflexivity |].
    apply Nat.div_lt; lia. }
  destruct adj.
  - rewrite bind_emit, plot_loop_complete by lia.
    rewrite bind_events, Hy, bind_ret, bind_emit, Hx, bind_ret.
    reflexivity.
  - rewrite bind_ret, plot_loop_complete by lia.
    rewrite bind_events, Hy, bind_ret, bind_emit, Hx, bind_ret.
    reflexivity.
Qed.

(** Too few titles: the turns with a title, one image more, then the
    index error. *)
Lemma draw_short n lay_type title arrs lo hi c t adj :
  layer_options lay_type title = (lo, hi, c, t, adj) ->
  1 <= n < 4 -> length arrs = n -> length t < n ->
  draw V n lay_type title arrs =
  (Subplots V 1 n
     :: (if adj then [SubplotsAdjust V] else [])
     ++ flat_map (shown V arrs c lo hi (String.eqb lay_type "ENU") t)
                 (seq 0 (length t))
     ++ shown_untitled V arrs c lo hi (String.eqb lay_type "ENU") (length t),
   inl IndexError).
Proof.
  intros E Hn Ha Ht. unfold draw.
  rewrite (proj2 (Nat.ltb_lt n 4)) by lia. rewrite bind_ret, bind_emit.
  rewrite (proj2 (Nat.eqb_neq n 0)) by lia. rewrite bind_ret, Nat.mul_1_l, E.
  destruct adj.
  - rewrite bind_emit, plot_loop_short by lia.
    rewrite Nat.sub_0_r. reflexivity.
  - rewrite bind_ret, plot_loop_short by lia.
    rewrite Nat.sub_0_r. reflexivity.
Qed.

(** *** Observations of a log *)

Lemma images_app (l1 l2 : list (event V)) :
  images V (l1 ++ l2) = images V l1 ++ images V l2.
Proof. apply flat_map_app. Qed.

Lemma titles_app (l1 l2 : list (event V)) :
  titles V (l1 ++ l2) = titles V l1 ++ titles V l2.
Proof. apply flat_map_app. Qed.

Lemma y_labels_app (l1 l2 : list (event V)) :
  y_labels V (l1 ++ l2) = y_labels V l1 ++ y_labels V l2.
Proof. apply flat_map_app. Qed.

Lemma x_labels_app (l1 l2 : list (event V)) :
  x_labels V (l1 ++ l2) = x_labels V l1 ++ x_labels V l2.
Proof. apply flat_map_app. Qed.

Lemma skipn_nth_cons {A} (l : list A) :
  forall k a, nth_error l k = Some a -> skipn k l = a :: skipn (S k) l.
Proof.
  induction l as [| x l IH]; intros [| k] a H; try discriminate.
  - now inversion H.
  - cbn [nth_error] in H. cbn [skipn]. rewrite (IH k a H). reflexivity.
Qed.

(** The turns of the loop, seen through the observations. *)
Lemma shown_observed arrs cmap vmin vmax enu title :
  forall m k,
    k + m <= length arrs -> k + m <= length title ->
    let log := flat_map (shown V arrs cmap vmin vmax enu title) (seq k m) in
    images V log = combine (seq k m) (skipn k arrs)
    /\ titles V log = combine (seq k m) (skipn k title)
    /\ y_labels V log = [] /\ x_labels V log = [].
Proof.
  induction m as [| m IH]; intros k Ha Ht; cbn [seq flat_map].
  - repeat split; reflexivity.
  - destruct (nth_error_lt arrs k) as [a Ea]; [lia |].
    destruct (nth_error_lt title k) as [t Et]; [lia |].
    rewrite (shown_some _ _ _ _ _ _ _ _ _ Ea Et).
    destruct (IH (S k)) as [Hi [Hti [Hy Hx]]]; [lia | lia |].
    rewrite images_app, titles_app, y_labels_app, x_labels_app.
    rewrite Hi, Hti, Hy, Hx.
    rewrite (skipn_nth_cons _ _ _ Ea), (skipn_nth_cons _ _ _ Et).
    repeat split; reflexivity.
Qed.

(** The messages of the band loop: one per failing band. *)
Lemma messages_eq (bs : list (Band V)) :
  flat_map (band_events V) bs = repeat msg (length (filter (fails V) bs)).
Proof.
  induction bs as [| b bs IH]; [reflexivity |].
  cbn [flat_map filter]. rewrite IH. unfold band_events, fails.
  destruct (GetNoDataValue b); reflexivity.
Qed.

Lemma messages_observed n :
  images V (repeat msg n) = [] /\ titles V (repeat msg n) = []
  /\ y_labels V (repeat msg n) = [] /\ x_labels V (repeat msg n) = [].
Proof. induction n as [| n IH]; [| cbn]; repeat split; apply IH. Qed.

Lemma final_title_options lay_type lo hi c t adj :
  layer_options lay_type [basename lay_type] = (lo, hi, c, t, adj) ->
  t = final_title lay_type /\ adj = String.eqb lay_type "ENU".
Proof.
  intros E. apply layer_options_title in E. unfold final_title.
  destruct (String.eqb lay_type "ENU"); exact E.
Qed.

(** *** [plot_layer]: the shape of every run *)

(** X1: On a dataset that opens, the log is one message per band whose
    no-data query raises, then the release of the dataset, then events
    of the drawing stage only. *)
Theorem plot_layer_log_shape gdal_Open path_layer lay_type ds :
  gdal_Open path_layer = Some ds ->
  let lt := layer_type path_layer lay_type in
  exists drawing,
    fst (plot_layer V gt_1e20 eqv gdal_Open path_layer lay_type) =
    repeat msg (length (filter (fails V) (bands ds))) ++ Close V :: drawing
    /\ Forall (drawn V lt [basename lt]) drawing.
Proof.
  intros H lt.
  rewrite (plot_layer_eq V gt_1e20 eqv gdal_Open path_layer lay_type ds H).
  cbn [fst]. rewrite messages_eq. eexists. split; [reflexivity |].
  apply draw_events.
Qed.

(** X2: With four bands or more every band is still read and masked, the
    dataset is released, and nothing is drawn before the exception. *)
Theorem plot_layer_unsupported_log gdal_Open path_layer lay_type ds :
  gdal_Open path_layer = Some ds ->
  4 <= RasterCount V ds ->
  plot_layer V gt_1e20 eqv gdal_Open path_layer lay_type =
  (repeat msg (length (filter (fails V) (bands ds))) ++ [Close V],
   inl (Exception "Number of bands currently unsupported")).
Proof.
  intros H Hn.
  rewrite (plot_layer_eq V gt_1e20 eqv gdal_Open path_layer lay_type ds H).
  rewrite draw_unsupported by exact Hn. cbn [fst snd].
  now rewrite messages_eq.
Qed.

(** X3: With one to three bands the run ends normally when there is one
    band or the layer type is ['ENU']; with two or three bands of
    another layer type it ends in an index error at the title of the
    second axis, after the first band was drawn and titled and the
    second drawn, and before any axis label. *)
Theorem plot_layer_outcome gdal_Open path_layer lay_type ds :
  gdal_Open path_layer = Some ds ->
  1 <= RasterCount V ds <= 3 ->
  let lt := layer_type path_layer lay_type in
  let run := plot_layer V gt_1e20 eqv gdal_Open path_layer lay_type in
  (RasterCount V ds = 1 \/ lt = "ENU" -> snd run = inr tt)
  /\ (2 <= RasterCount V ds -> lt <> "ENU" ->
      snd run = inl IndexError
      /\ map fst (images V (fst run)) = [0; 1]
      /\ titles V (fst run) = [(0, basename lt)]
      /\ y_labels V (fst run) = [] /\ x_labels V (fst run) = []).
Proof.
  intros H Hn lt run. subst run.
  rewrite (plot_layer_eq V gt_1e20 eqv gdal_Open path_layer lay_type ds H).
  fold lt. cbn [fst snd].
  destruct (layer_options lt [basename lt]) as [[[[lo hi] c] t] adj] eqn:E.
  destruct (final_title_options _ _ _ _ _ _ E) as [Et Eadj].
  unfold final_title in Et.
  set (arrs := map (masked_band V gt_1e20 eqv) (bands ds)).
  assert (Ha : length arrs = RasterCount V ds) by apply length_map.
  split.
  - intros Hc.
    rewrite (draw_complete _ _ _ _ _ _ _ _ _ E); [reflexivity | lia | exact Ha |].
    destruct (String.eqb lt "ENU") eqn:EN; subst t; cbn [length].
    + lia.
    + destruct Hc as [Hc | Hc]; [lia |].
      apply String.eqb_neq in EN. contradiction.
  - intros H2 HE. apply String.eqb_neq in HE. rewrite HE in Et, Eadj.
    subst t adj.
    rewrite (draw_short _ _ _ _ _ _ _ _ _ E); [| lia | exact Ha | cbn; lia].
    cbn [fst snd length]. split; [reflexivity |].
    rewrite messages_eq.
    destruct (messages_observed (length (filter (fails V) (bands ds))))
      as [Mi [Mt [My Mx]]].
    rewrite images_app, titles_app, y_labels_app, x_labels_app.
    rewrite Mi, Mt, My, Mx.
    unfold RasterCount in *. subst arrs.
    destruct (bands ds) as [| b0 [| b1 bs]]; cbn [length] in H2; try lia.
    repeat split; reflexivity.
Qed.

(** X4: A run that ends normally drew every band once, band [k] on axis
    [k], gave the axes the titles of the layer type in order, and put
    the y label on axis 0 and the x label on the middle axis. *)
Theorem plot_layer_draws_each_band gdal_Open path_layer lay_type ds :
  gdal_Open path_layer = Some ds ->
  let lt := layer_type path_layer lay_type in
  let run := plot_layer V gt_1e20 eqv gdal_Open path_layer lay_type in
  let n := RasterCount V ds in
  snd run = inr tt ->
  exists lst_arrs,
    snd (read_bands V gt_1e20 eqv ds) = inr lst_arrs
    /\ images V (fst run) = combine (seq 0 n) lst_arrs
    /\ titles V (fst run) = combine (seq 0 n) (final_title lt)
    /\ y_labels V (fst run) = [0]
    /\ x_labels V (fst run) = [n / 2].
Proof.
  intros H lt run n. subst run.
  rewrite read_bands_eq.
  rewrite (plot_layer_eq V gt_1e20 eqv gdal_Open path_layer lay_type ds H).
  fold lt. fold n. cbn [fst snd].
  set (arrs := map (masked_band V gt_1e20 eqv) (bands ds)).
  assert (Ha : length arrs = n) by apply length_map.
  destruct (layer_options lt [basename lt]) as [[[[lo hi] c] t] adj] eqn:E.
  destruct (final_title_options _ _ _ _ _ _ E) as [Et _].
  intros Hok. exists arrs. split; [reflexivity |].
  destruct (Nat.lt_ge_cases n 4) as [H4 | H4];
    [| rewrite draw_unsupported in Hok by exact H4; discriminate].
  destruct (Nat.eq_dec n 0) as [H0 | H0].
  { rewrite H0 in Hok. unfold draw in Hok. cbn in Hok. discriminate. }
  destruct (Nat.lt_ge_cases (length t) n) as [Hs | Hs].
  { rewrite (draw_short _ _ _ _ _ _ _ _ _ E) in Hok by (try lia; exact Ha).
    discriminate. }
  rewrite (draw_complete _ _ _ _ _ _ _ _ _ E) by (try lia; exact Ha).
  cbn [fst]. rewrite messages_eq.
  destruct (messages_observed (length (filter (fails V) (bands ds))))
    as [Mi [Mt [My Mx]]].
  destruct (shown_observed arrs c lo hi (String.eqb lt "ENU") t n 0)
    as [Si [St [Sy Sx]]]; [lia | lia |].
  cbn [skipn] in Si, St.
  assert (Adj : forall b : bool,
             images V (if b then [SubplotsAdjust V] else []) = []
             /\ titles V (if b then [SubplotsAdjust V] else []) = []
             /\ y_labels V (if b then [SubplotsAdjust V] else []) = []
             /\ x_labels V (if b then [SubplotsAdjust V] else []) = [])
    by (intros []; repeat split; reflexivity).
  destruct (Adj adj) as [Ai [At [Ay Ax]]].
  change (Close V :: Subplots V 1 n :: ?l)
    with ([Close V; Subplots V 1 n] ++ l).
  rewrite !images_app, !titles_app, !y_labels_app, !x_labels_app.
  rewrite Mi, Mt, My, Mx, Ai, At, Ay, Ax, Si, St, Sy, Sx, <- Et.
  repeat split; cbn; now rewrite ?app_nil_r.
Qed.

(** *** Failing no-data queries *)

Lemma masked_band_assume (b : Band V) :
  masked_band V gt_1e20 eqv (assume_no_value V b) =
  masked_band V gt_1e20 eqv b.
Proof.
  unfold assume_no_value, fails, masked_band.
  destruct (GetNoDataValue b) as [e | nd] eqn:E; cbn; [| now rewrite E].
  f_equal. apply map_ext. intros v. apply orb_false_r.
Qed.

Lemma band_events_assume (bs : list (Band V)) :
  flat_map (band_events V) (map (assume_no_value V) bs) = [].
Proof.
  induction bs as [| b bs IH]; [reflexivity |].
  cbn [map flat_map]. rewrite IH, app_nil_r.
  unfold band_events, assume_no_value, fails.
  destruct (GetNoDataValue b) eqn:E; cbn; [reflexivity | now rewrite E].
Qed.

Lemma filter_all {A} (f : A -> bool) (l : list A) :
  Forall (fun x => f x = true) l -> filter f l = l.
Proof.
  induction 1 as [| x l Hx _ IH]; [reflexivity |].
  cbn. now rewrite Hx, IH.
Qed.

Lemma filter_none {A} (f : A -> bool) (l : list A) :
  Forall (fun x => f x = false) l -> filter f l = [].
Proof.
  induction 1 as [| x l Hx _ IH]; [reflexivity |].
  cbn. now rewrite Hx, IH.
Qed.

(** X5: A band whose no-data query raises is drawn like a band that
    reports no no-data value: the run has the same outcome and, the
    messages apart, the same events. *)
Theorem failing_query_like_no_value gdal_Open gdal_Open' path_layer lay_type ds :
  gdal_Open path_layer = Some ds ->
  gdal_Open' path_layer = Some (without_failures V ds) ->
  let run := plot_layer V gt_1e20 eqv gdal_Open path_layer lay_type in
  let run' := plot_layer V gt_1e20 eqv gdal_Open' path_layer lay_type in
  snd run = snd run'
  /\ filter (fun ev => negb (is_print V ev)) (fst run) = fst run'
  /\ filter (is_print V) (fst run') = [].
Proof.
  intros H H' run run'. subst run run'.
  rewrite (plot_layer_eq V gt_1e20 eqv gdal_Open path_layer lay_type ds H).
  rewrite (plot_layer_eq V gt_1e20 eqv gdal_Open' path_layer lay_type _ H').
  unfold without_failures, RasterCount. cbn [bands fst snd].
  rewrite length_map, map_map, band_events_assume.
  rewrite (map_ext _ _ masked_band_assume).
  set (lt := layer_type path_layer lay_type).
  set (d := draw V _ lt _ _).
  assert (D : Forall (fun ev => is_print V ev = false) (fst d)).
  { eapply Forall_impl; [| apply draw_events].
    intros [] X; try reflexivity; contradiction. }
  split; [reflexivity |]. split.
  - rewrite filter_app, messages_eq. cbn [filter is_print negb app].
    rewrite filter_none, filter_all; [reflexivity | |].
    + eapply Forall_impl; [| exact D]. now intros ev ->.
    + apply Forall_forall. intros ev Hev. apply repeat_spec in Hev.
      now subst ev.
  - cbn [app filter is_print]. now apply filter_none.
Qed.

(** *** Colour bounds by layer type *)

Lemma ends_with_length suffix :
  forall s, Kmz.ends_with suffix s = true ->
            String.length suffix <= String.length s.
Proof.
  induction s as [| ch s IH]; cbn [Kmz.ends_with]; intros H.
  - rewrite orb_false_r in H. apply String.eqb_eq in H. now subst.
  - apply orb_true_iff in H. destruct H as [H | H].
    + apply String.eqb_eq in H. now subst.
    + apply IH in H. cbn [String.length]. lia.
Qed.

(** Two suffixes of one length are the same. *)
Lemma ends_with_same_length a b :
  String.length a = String.length b ->
  forall s, Kmz.ends_with a s = true -> Kmz.ends_with b s = true -> a = b.
Proof.
  intros L. induction s as [| ch s IH]; cbn [Kmz.ends_with]; intros Ha Hb.
  - rewrite orb_false_r in Ha, Hb.
    apply String.eqb_eq in Ha, Hb. congruence.
  - apply orb_true_iff in Ha, Hb.
    destruct Ha as [Ha | Ha], Hb as [Hb | Hb].
    + apply String.eqb_eq in Ha, Hb. congruence.
    + apply String.eqb_eq in Ha. apply ends_with_length in Hb.
      subst a. cbn [String.length] in L. lia.
    + apply String.eqb_eq in Hb. apply ends_with_length in Ha.
      subst b. cbn [String.length] in L. lia.
    + now apply IH.
Qed.

(** X6: Every image of a layer whose type ends in [amplitude] is drawn in
    grey with the upper bound 2000 and no lower bound, and every image
    of a layer whose type ends in [coherence] in grey between 0 and 1,
    whatever the outcome of the run. *)
Theorem amplitude_and_coherence_bounds gdal_Open path_layer lay_type ds :
  gdal_Open path_layer = Some ds ->
  let lt := layer_type path_layer lay_type in
  forall i a cmap vmin vmax,
    In (Imshow V i a cmap vmin vmax)
       (fst (plot_layer V gt_1e20 eqv gdal_Open path_layer lay_type)) ->
    (Kmz.ends_with "amplitude" lt = true ->
     cmap = "Greys_r" /\ vmin = None /\ vmax = Some 2000%Z)
    /\ (Kmz.ends_with "coherence" lt = true ->
        cmap = "Greys_r" /\ vmin = Some 0%Z /\ vmax = Some 1%Z).
Proof.
  intros H lt i a cmap vmin vmax Hin.
  rewrite (plot_layer_eq V gt_1e20 eqv gdal_Open path_layer lay_type ds H)
    in Hin.
  fold lt in Hin. cbn [fst] in Hin. rewrite messages_eq in Hin.
  apply in_app_or in Hin. destruct Hin as [Hin | Hin].
  { apply repeat_spec in Hin. discriminate. }
  destruct Hin as [Hin | Hin]; [discriminate |].
  pose proof (draw_events (RasterCount V ds) lt [basename lt]
                (map (masked_band V gt_1e20 eqv) (bands ds))) as D.
  rewrite Forall_forall in D. apply D in Hin. unfold drawn in Hin.
  split; intros E.
  - unfold layer_options in Hin. rewrite E in Hin. exact Hin.
  - assert (A : Kmz.ends_with "amplitude" lt = false).
    { destruct (Kmz.ends_with "amplitude" lt) eqn:A; [| reflexivity].
      pose proof (ends_with_same_length "amplitude" "coherence" eq_refl
                    lt A E) as X.
      discriminate. }
    unfold layer_options in Hin. rewrite A, E in Hin. exact Hin.
Qed.

(** *** A path without a directory *)

Lemma rsplit_no_slash :
  forall p, Paths.contains "/" p = false -> rsplit p = None.
Proof.
  induction p as [| ch p IH]; [reflexivity |].
  cbn [Paths.contains]. intros H. apply orb_false_iff in H.
  destruct H as [H1 H2]. cbn [rsplit]. rewrite (IH H2).
  cbn [String.prefix] in H1.
  destruct (Ascii.eqb ch "/") eqn:E; [| reflexivity].
  apply Ascii.eqb_eq in E. subst ch. cbn in H1.
  destruct p; discriminate.
Qed.

(** X7: Without a layer type and without a directory in the path the
    layer type is empty: every image is drawn with the colormap
    coolwarm and no bounds, and every title is empty. *)
Theorem plot_layer_bare_path gdal_Open path_layer lay_type ds :
  gdal_Open path_layer = Some ds ->
  Paths.contains "/" path_layer = false ->
  lay_type = None \/ lay_type = Some EmptyString ->
  let log := fst (plot_layer V gt_1e20 eqv gdal_Open path_layer lay_type) in
  layer_type path_layer lay_type = EmptyString
  /\ (forall i a cmap vmin vmax,
        In (Imshow V i a cmap vmin vmax) log ->
        cmap = "coolwarm" /\ vmin = None /\ vmax = None)
  /\ (forall i t, In (SetTitle V i t) log -> t = EmptyString).
Proof.
  intros H Hp Hl log. subst log.
  assert (L : layer_type path_layer lay_type = EmptyString).
  { unfold layer_type, dirname.
    rewrite (rsplit_no_slash _ Hp). now destruct Hl as [-> | ->]. }
  split; [exact L |].
  rewrite (plot_layer_eq V gt_1e20 eqv gdal_Open path_layer lay_type ds H).
  rewrite L. cbn [fst]. rewrite messages_eq.
  pose proof (draw_events (RasterCount V ds) EmptyString
                [basename EmptyString]
                (map (masked_band V gt_1e20 eqv) (bands ds))) as D.
  rewrite Forall_forall in D.
  split; intros.
  - apply in_app_or in H0. destruct H0 as [X | [X | X]].
    + apply repeat_spec in X. discriminate.
    + discriminate.
    + apply D in X. exact X.
  - apply in_app_or in H0. destruct H0 as [X | [X | X]].
    + apply repeat_spec in X. discriminate.
    + discriminate.
    + apply D in X. cbn in X. now destruct X.
Qed.

(** *** The masking cell: when it fails *)

(** X9: The masking cell passes on the error of the no-data query; with an
    answer it succeeds, on the data read from the unwrappedPhase band,
    when the connected components have as many pixels as the phase or
    one pixel, and ends in a mask error otherwise. *)
Theorem masking_cell_outcome (p : Product V) :
  let unw := ReadAsArray (unwrappedPhase V p) in
  let cc := ReadAsArray (connectedComponents V p) in
  match GetNoDataValue (unwrappedPhase V p) with
  | inl e => masking_cell V eqv p = inl e
  | inr _ =>
      if Nat.eqb (length cc) (length unw) || Nat.eqb (length cc) 1
      then exists m, masking_cell V eqv p = inr m
                     /\ data m = unw
                     /\ length (mask m) = length unw
                     /\ fill_value m = Some 999999%Z
      else masking_cell V eqv p = inl MaskError
  end.
Proof.
  intros unw cc. unfold masking_cell. fold unw cc.
  destruct (GetNoDataValue (unwrappedPhase V p)) as [e | NDV];
    [reflexivity |].
  unfold masked_array, plain. cbn [data mask].
  rewrite length_map, Nat.eqb_refl. cbn [data mask]. rewrite length_map.
  destruct (Nat.eqb (length cc) (length unw)) eqn:E1; cbn [orb].
  - apply Nat.eqb_eq in E1. eexists. split; [reflexivity |].
    cbn [data mask fill_value]. repeat split.
    rewrite !length_lor, !length_map, repeat_length. lia.
  - destruct (Nat.eqb (length cc) 1); [| reflexivity].
    eexists. split; [reflexivity |].
    cbn [data mask fill_value]. repeat split.
    rewrite !length_lor, !length_map, !repeat_length. lia.
Qed.

(** *** The call of the tutorial *)

(** X8: The call of the ariaPlot notebook,
    [plot_layer('figures/avgcoherence.vrt','coherence')], on a raster
    of one band: at most one message, the release, one grid of one
    axis, the band drawn in grey between 0 and 1 under the title
    [coherence], both labels on that axis, and a normal end. *)
Theorem tutorial_call_on_one_band gdal_Open (b : Band V) :
  gdal_Open "figures/avgcoherence.vrt" = Some {| bands := [b] |} ->
  code AriaPlotNb.avgcoh_cell =
  [SExpr (call (EName "plot_layer")
            [EStr "figures/avgcoherence.vrt"; EStr "coherence"])]
  /\ plot_layer V gt_1e20 eqv gdal_Open "figures/avgcoherence.vrt"
                (Some "coherence") =
     ((if fails V b then [msg] else [])
      ++ [ Close V; Subplots V 1 1;
           Imshow V 0 (masked_band V gt_1e20 eqv b) "Greys_r"
                  (Some 0%Z) (Some 1%Z);
           Colorbar V 0 false; SetTitle V 0 "coherence"; SetYLabel V 0;
           SetXLabel V 0 ],
      inr tt).
Proof.
  intros H. split; [reflexivity |].
  rewrite (plot_layer_eq V gt_1e20 eqv gdal_Open _ _ _ H).
  unfold fails, band_events. cbn [bands flat_map app].
  destruct (GetNoDataValue b); reflexivity.
Qed.

End Raster.

(** The properties at the sample rasters. *)

Lemma plot_layer_log_shape_witness :
  Sample.opening Sample.two_bands "figures/avgcoherence.vrt"
  = Some Sample.two_bands
  /\ exists drawing,
       fst (plot_layer Z Sample.gt_1e20 Z.eqb
              (Sample.opening Sample.two_bands) "figures/avgcoherence.vrt"
              (Some "coherence")) =
       repeat (Printed Z "Could not find a no-data value...")
              (length (filter (fails Z) (bands Sample.two_bands)))
       ++ Close Z :: drawing
       /\ Forall (drawn Z "coherence" [basename "coherence"]) drawing.
Proof.
  split; [reflexivity |].
  apply (plot_layer_log_shape Z Sample.gt_1e20 Z.eqb
           (Sample.opening Sample.two_bands) "figures/avgcoherence.vrt"
           (Some "coherence") Sample.two_bands).
  reflexivity.
Defined.

Lemma plot_layer_unsupported_log_witness :
  Sample.opening Sample.four_bands "figures/avgcoherence.vrt"
  = Some Sample.four_bands
  /\ 4 <= RasterCount Z Sample.four_bands
  /\ plot_layer Z Sample.gt_1e20 Z.eqb (Sample.opening Sample.four_bands)
                "figures/avgcoherence.vrt" (Some "coherence") =
     (repeat (Printed Z "Could not find a no-data value...")
             (length (filter (fails Z) (bands Sample.four_bands)))
      ++ [Close Z],
      inl (Exception "Number of bands currently unsupported")).
Proof.
  split; [reflexivity |]. split; [cbn; lia |].
  apply (plot_layer_unsupported_log Z Sample.gt_1e20 Z.eqb
           (Sample.opening Sample.four_bands));
    [reflexivity | cbn; lia].
Defined.

Lemma plot_layer_outcome_witness :
  Sample.opening Sample.two_bands "figures/avgcoherence.vrt"
  = Some Sample.two_bands
  /\ 1 <= RasterCount Z Sample.two_bands <= 3
  /\ let lt := layer_type "figures/avgcoherence.vrt" (Some "coherence") in
     let run := plot_layer Z Sample.gt_1e20 Z.eqb
                  (Sample.opening Sample.two_bands) "figures/avgcoherence.vrt"
                  (Some "coherence") in
     (RasterCount Z Sample.two_bands = 1 \/ lt = "ENU" -> snd run = inr tt)
     /\ (2 <= RasterCount Z Sample.two_bands -> lt <> "ENU" ->
         snd run = inl IndexError
         /\ map fst (images Z (fst run)) = [0; 1]
         /\ titles Z (fst run) = [(0, basename lt)]
         /\ y_labels Z (fst run) = [] /\ x_labels Z (fst run) = []).
Proof.
  split; [reflexivity |]. split; [cbn; lia |].
  apply (plot_layer_outcome Z Sample.gt_1e20 Z.eqb
           (Sample.opening Sample.two_bands));
    [reflexivity | cbn; lia].
Defined.

Lemma plot_layer_draws_each_band_witness :
  Sample.opening Runs.Sample.three_bands "ENU/enu.vrt"
  = Some Runs.Sample.three_bands
  /\ snd (plot_layer Z Sample.gt_1e20 Z.eqb
            (Sample.opening Runs.Sample.three_bands) "ENU/enu.vrt" None)
     = inr tt
  /\ exists lst_arrs,
       snd (read_bands Z Sample.gt_1e20 Z.eqb Runs.Sample.three_bands)
       = inr lst_arrs
       /\ images Z (fst (plot_layer Z Sample.gt_1e20 Z.eqb
                           (Sample.opening Runs.Sample.three_bands)
                           "ENU/enu.vrt" None))
          = combine (seq 0 3) lst_arrs
       /\ titles Z (fst (plot_layer Z Sample.gt_1e20 Z.eqb
                           (Sample.opening Runs.Sample.three_bands)
                           "ENU/enu.vrt" None))
          = combine (seq 0 3) (final_title "ENU")
       /\ y_labels Z (fst (plot_layer Z Sample.gt_1e20 Z.eqb
                             (Sample.opening Runs.Sample.three_bands)
                             "ENU/enu.vrt" None)) = [0]
       /\ x_labels Z (fst (plot_layer Z Sample.gt_1e20 Z.eqb
                             (Sample.opening Runs.Sample.three_bands)
                             "ENU/enu.vrt" None)) = [3 / 2].
Proof.
  split; [reflexivity |]. split; [reflexivity |].
  apply (plot_layer_draws_each_band Z Sample.gt_1e20 Z.eqb
           (Sample.opening Runs.Sample.three_bands) "ENU/enu.vrt" None
           Runs.Sample.three_bands);
    reflexivity.
Defined.

Lemma failing_query_like_no_value_witness :
  Sample.opening Sample.two_bands "figures/avgcoherence.vrt"
  = Some Sample.two_bands
  /\ Sample.opening (without_failures Z Sample.two_bands)
       "figures/avgcoherence.vrt"
     = Some (without_failures Z Sample.two_bands)
  /\ let run := plot_layer Z Sample.gt_1e20 Z.eqb
                  (Sample.opening Sample.two_bands) "figures/avgcoherence.vrt"
                  (Some "ENU") in
     let run' := plot_layer Z Sample.gt_1e20 Z.eqb
                   (Sample.opening (without_failures Z Sample.two_bands))
                   "figures/avgcoherence.vrt" (Some "ENU") in
     snd run = snd run'
     /\ filter (fun ev => negb (is_print Z ev)) (fst run) = fst run'
     /\ filter (is_print Z) (fst run') = [].
Proof.
  split; [reflexivity |]. split; [reflexivity |].
  apply (failing_query_like_no_value Z Sample.gt_1e20 Z.eqb
           (Sample.opening Sample.two_bands)
           (Sample.opening (without_failures Z Sample.two_bands))
           "figures/avgcoherence.vrt" (Some "ENU") Sample.two_bands);
    reflexivity.
Defined.

Lemma amplitude_and_coherence_bounds_witness :
  Sample.opening Sample.one_band "figures/avgcoherence.vrt"
  = Some Sample.one_band
  /\ forall i a cmap vmin vmax,
       In (Imshow Z i a cmap vmin vmax)
          (fst (plot_layer Z Sample.gt_1e20 Z.eqb
                  (Sample.opening Sample.one_band) "figures/avgcoherence.vrt"
                  (Some "coherence"))) ->
       (Kmz.ends_with "amplitude" "coherence" = true ->
        cmap = "Greys_r" /\ vmin = None /\ vmax = Some 2000%Z)
       /\ (Kmz.ends_with "coherence" "coherence" = true ->
           cmap = "Greys_r" /\ vmin = Some 0%Z /\ vmax = Some 1%Z).
Proof.
  split; [reflexivity |].
  apply (amplitude_and_coherence_bounds Z Sample.gt_1e20 Z.eqb
           (Sample.opening Sample.one_band) "figures/avgcoherence.vrt"
           (Some "coherence") Sample.one_band).
  reflexivity.
Defined.

Lemma plot_layer_bare_path_witness :
  Sample.opening Sample.one_band "avgcoherence.vrt" = Some Sample.one_band
  /\ Paths.contains "/" "avgcoherence.vrt" = false
  /\ let log := fst (plot_layer Z Sample.gt_1e20 Z.eqb
                       (Sample.opening Sample.one_band) "avgcoherence.vrt"
                       None) in
     layer_type "avgcoherence.vrt" None = EmptyString
     /\ (forall i a cmap vmin vmax,
           In (Imshow Z i a cmap vmin vmax) log ->
           cmap = "coolwarm" /\ vmin = None /\ vmax = None)
     /\ (forall i t, In (SetTitle Z i t) log -> t = EmptyString).
Proof.
  split; [reflexivity |]. split; [reflexivity |].
  apply (plot_layer_bare_path Z Sample.gt_1e20 Z.eqb
           (Sample.opening Sample.one_band) "avgcoherence.vrt" None
           Sample.one_band);
    [reflexivity | reflexivity | now left].
Defined.

Lemma tutorial_call_on_one_band_witness :
  Sample.opening Sample.one_band "figures/avgcoherence.vrt"
  = Some {| bands := [Sample.band] |}
  /\ code AriaPlotNb.avgcoh_cell =
     [SExpr (call (EName "plot_layer")
               [EStr "figures/avgcoherence.vrt"; EStr "coherence"])]
  /\ plot_layer Z Sample.gt_1e20 Z.eqb (Sample.opening Sample.one_band)
                "figures/avgcoherence.vrt" (Some "coherence") =
     ((if fails Z Sample.band
       then [Printed Z "Could not find a no-data value..."] else [])
      ++ [ Close Z; Subplots Z 1 1;
           Imshow Z 0 (masked_band Z Sample.gt_1e20 Z.eqb Sample.band)
                  "Greys_r" (Some 0%Z) (Some 1%Z);
           Colorbar Z 0 false; SetTitle Z 0 "coherence"; SetYLabel Z 0;
           SetXLabel Z 0 ],
      inr tt).
Proof.
  split; [reflexivity |].
  apply (tutorial_call_on_one_band Z Sample.gt_1e20 Z.eqb
           (Sample.opening Sample.one_band) Sample.band).
  reflexivity.
Defined.

(** The masking cell on layers of different sizes, and behind a
    no-data query that raises. *)
Example masking_cell_mismatched :
  masking_cell Z Z.eqb Runs.Sample.mismatched = inl MaskError.
Proof. reflexivity. Qed.

Example masking_cell_unanswered :
  masking_cell Z Z.eqb Runs.Sample.unanswered = inl (GdalError "no-data").
Proof. reflexivity. Qed.

End RunFacts.

(* ===================================================================== *)
(** ** More about the cells *)
(* ===================================================================== *)

Module SessionFacts.

(** X10: Run in order, no cell and no statement of [plot_layer] takes an
    attribute or an element of a variable that was set to [None]; the
    two cells that end by releasing [unwPhase] do so when run a second
    time. *)
Theorem no_use_after_release :
  map (fun n => Lifetime.use_after_release (cells n)) notebooks
  = [[]; []; []]
  /\ fst (Lifetime.check_block AriaPlotNb.plot_layer_body []) = []
  /\ Lifetime.use_after_release
       (Sections.prep
        ++ [GdalBasicsNb.sub_open_cell; GdalBasicsNb.stats_cell;
            GdalBasicsNb.stats_cell])
     = [(392, "unwPhase")]
  /\ Lifetime.use_after_release
       (Sections.prep
        ++ [GdalBasicsNb.load_cell; GdalBasicsNb.corner_cell;
            GdalBasicsNb.masking_cell; GdalBasicsNb.masking_cell])
     = [(651, "unwPhase")].
Proof. repeat split; reflexivity. Qed.

(** X11: [plot_layer] never reads the values passed for [cmap] and for the
    extra keyword arguments: it assigns [cmap] before the first use and
    does not mention [kwargs]; the path and the layer type are read. *)
Theorem plot_layer_ignores_cmap :
  Params.ignored_parameters AriaPlotNb.plot_layer_def = ["cmap"; "kwargs"]
  /\ Params.read_before_write "path_layer" AriaPlotNb.plot_layer_body = true
  /\ Params.read_before_write "lay_type" AriaPlotNb.plot_layer_body = true
  /\ existsb (fun x => String.eqb x "kwargs")
       (flat_map Names.reads (block_exprs AriaPlotNb.plot_layer_body)) = false.
Proof. repeat split; reflexivity. Qed.

Lemma inserts_in {A} (x : A) (l2 : list A) :
  forall l1, In (l1 ++ x :: l2) (Sections.inserts x (l1 ++ l2)).
Proof.
  induction l1 as [| y l1 IH]; cbn [app Sections.inserts].
  - destruct l2; now left.
  - right. apply in_map. exact IH.
Qed.

(** [orders] lists every permutation. *)
Lemma orders_complete {A} (l : list A) :
  forall l', Permutation l l' -> In l' (Sections.orders l).
Proof.
  induction l as [| x r IH]; intros l' P.
  - apply Permutation_nil in P. subst. now left.
  - assert (I : In x l') by (eapply Permutation_in; [exact P | now left]).
    apply in_split in I. destruct I as [l1 [l2 ->]].
    apply Permutation_cons_app_inv in P.
    cbn [Sections.orders]. apply in_flat_map.
    exists (l1 ++ l2). split; [now apply IH | apply inserts_in].
Qed.

(** X12: After the preparation the four numbered sections of the GDAL
    notebook run in any order: every name a cell reads is bound, and
    no variable is dereferenced after it was set to [None]. *)
Theorem sections_in_any_order (order : list (list cell)) :
  Permutation Sections.sections order ->
  Sections.runs_clean order = true.
Proof.
  intros P. apply orders_complete in P.
  assert (X : forallb Sections.runs_clean
                (Sections.orders Sections.sections) = true)
    by (vm_compute; reflexivity).
  rewrite forallb_forall in X. now apply X.
Qed.

Lemma sections_in_any_order_witness :
  Permutation Sections.sections (rev Sections.sections)
  /\ Sections.runs_clean (rev Sections.sections) = true.
Proof.
  split; [apply Permutation_rev |].
  apply (sections_in_any_order (rev Sections.sections)).
  apply Permutation_rev.
Defined.

(** Without the preparation the first section reads names no cell has
    bound. *)
Example section_needs_preparation :
  Names.unbound (Notebook "session" Sections.section1)
  = ["gdal"; "fileName"; "gdal"].
Proof. reflexivity. Qed.

End SessionFacts.

(* ===================================================================== *)
(** ** [plot_layer]: from the band loop to the plot *)
(* ===================================================================== *)

Module PlotFacts.
Import Sem Runs SemFacts RunFacts.

Section Raster.

Variable V : Type.
Variable gt_1e20 : V -> bool.
Variable eqv : V -> V -> bool.

Local Abbreviation msg := (Printed V "Could not find a no-data value...").

(** The messages of the band loop ask for no grid, draw nothing and
    set no title or label: what a run shows is what its drawing stage
    shows. *)
Lemma run_observed gdal_Open path_layer lay_type ds :
  gdal_Open path_layer = Some ds ->
  let lt := layer_type path_layer lay_type in
  let d := draw V (RasterCount V ds) lt [basename lt]
                (map (masked_band V gt_1e20 eqv) (bands ds)) in
  let run := plot_layer V gt_1e20 eqv gdal_Open path_layer lay_type in
  layout V (fst run) = layout V (fst d)
  /\ images V (fst run) = images V (fst d)
  /\ titles V (fst run) = titles V (fst d)
  /\ y_labels V (fst run) = y_labels V (fst d)
  /\ x_labels V (fst run) = x_labels V (fst d)
  /\ snd run = snd d.
Proof.
  intros H lt d run. subst run.
  rewrite (plot_layer_eq V gt_1e20 eqv gdal_Open path_layer lay_type ds H).
  fold lt. fold d. cbn [fst snd].
  rewrite layout_app, band_events_layout, images_app, titles_app,
    y_labels_app, x_labels_app, messages_eq.
  destruct (messages_observed V (length (filter (fails V) (bands ds))))
    as [Mi [Mt [My Mx]]].
  rewrite Mi, Mt, My, Mx. repeat split; reflexivity.
Qed.

(** With one to three bands the drawing stage draws the arrays it is
    given, each on the axis of its index: the first two always, all of
    them when it ends normally, and nothing else. *)
Lemma draw_images n lay_type (arrs : list (masked V)) :
  1 <= n <= 3 -> length arrs = n ->
  let d := draw V n lay_type [basename lay_type] arrs in
  (forall k arr,
     nth_error arrs k = Some arr -> k <= 1 \/ snd d = inr tt ->
     In (k, arr) (images V (fst d)))
  /\ (forall k arr,
        In (k, arr) (images V (fst d)) -> nth_error arrs k = Some arr).
Proof.
  intros Hn Ha d. subst d.
  destruct (layer_options lay_type [basename lay_type])
    as [[[[lo hi] c] t] adj] eqn:E.
  destruct (final_title_options _ _ _ _ _ _ E) as [Et Eadj].
  unfold final_title in Et.
  destruct (String.eqb lay_type "ENU") eqn:EN; subst t adj n;
    destruct arrs as [| a0 [| a1 [| a2 [| a3 r]]]];
    cbn [Datatypes.length] in Hn; try lia.
  all: try (rewrite (draw_complete V _ _ _ _ _ _ _ _ _ E)
             by (cbn [Datatypes.length]; try lia; reflexivity)).
  all: try (rewrite (draw_short V _ _ _ _ _ _ _ _ _ E)
             by (cbn [Datatypes.length]; try lia; reflexivity)).
  all: cbn; split;
    [ intros k arr Hk Hc;
      repeat (destruct k as [| k]; cbn in Hk; try discriminate);
      inversion Hk; subst; auto 6;
      (destruct Hc as [Hc | Hc]; [lia | discriminate Hc])
    | intros k arr Hin;
      repeat (destruct Hin as [Hin | Hin];
              [inversion Hin; subst; reflexivity |]);
      contradiction ].
Qed.

(** With one to three bands the drawing stage asks for one grid, of one
    row and one column per band; it ends normally exactly when there is
    one band or the layer type is ['ENU'], and otherwise at the title
    of the second axis. *)
Lemma draw_outcome n lay_type (arrs : list (masked V)) :
  1 <= n <= 3 -> length arrs = n ->
  let d := draw V n lay_type [basename lay_type] arrs in
  layout V (fst d) = [(1, n)]
  /\ (snd d = inr tt <-> n = 1 \/ lay_type = "ENU")
  /\ (snd d = inr tt -> map fst (images V (fst d)) = seq 0 n)
  /\ (snd d <> inr tt ->
      snd d = inl IndexError
      /\ map fst (images V (fst d)) = [0; 1]
      /\ titles V (fst d) = [(0, basename lay_type)]
      /\ y_labels V (fst d) = [] /\ x_labels V (fst d) = []).
Proof.
  intros Hn Ha d. subst d.
  destruct (layer_options lay_type [basename lay_type])
    as [[[[lo hi] c] t] adj] eqn:E.
  destruct (final_title_options _ _ _ _ _ _ E) as [Et Eadj].
  unfold final_title in Et.
  destruct (String.eqb lay_type "ENU") eqn:EN; subst t adj n;
    [apply String.eqb_eq in EN | apply String.eqb_neq in EN];
    destruct arrs as [| a0 [| a1 [| a2 [| a3 r]]]];
    cbn [Datatypes.length] in Hn; try lia.
  all: try (rewrite (draw_complete V _ _ _ _ _ _ _ _ _ E)
             by (cbn [Datatypes.length]; try lia; reflexivity)).
  all: try (rewrite (draw_short V _ _ _ _ _ _ _ _ _ E)
             by (cbn [Datatypes.length]; try lia; reflexivity)).
  all: cbn; repeat split; auto; try discriminate; try congruence.
  all: try (intros [X | X]; [discriminate X | contradiction]).
Qed.

(** *** From the band loop to the plot *)

(** C8 fails on the code: the exception 'Number of bands currently
    unsupported' ends the run exactly when the dataset has four bands
    or more, and with one to three bands the one grid asked for has
    one row and one column per band; but the run goes through only
    with one band or the layer type ['ENU'].  With two or three bands
    of any other layer type the title list has one element: the run
    ends in an index error at the title of the second axis, with two
    bands drawn, one title and no axis label, and a third band is
    never drawn. *)
Theorem plot_layer_stops_at_second_title gdal_Open path_layer lay_type ds :
  gdal_Open path_layer = Some ds ->
  let lt := layer_type path_layer lay_type in
  let run := plot_layer V gt_1e20 eqv gdal_Open path_layer lay_type in
  let n := RasterCount V ds in
  (snd run = inl (Exception "Number of bands currently unsupported")
   <-> 4 <= n)
  /\ (1 <= n <= 3 ->
      layout V (fst run) = [(1, n)]
      /\ (snd run = inr tt <-> n = 1 \/ lt = "ENU")
      /\ (snd run = inr tt -> map fst (images V (fst run)) = seq 0 n)
      /\ (snd run <> inr tt ->
          snd run = inl IndexError
          /\ map fst (images V (fst run)) = [0; 1]
          /\ titles V (fst run) = [(0, basename lt)]
          /\ y_labels V (fst run) = [] /\ x_labels V (fst run) = [])).
Proof.
  intros H lt run n.
  destruct (run_observed gdal_Open path_layer lay_type ds H)
    as [Rl [Ri [Rt [Ry [Rx Rs]]]]].
  fold lt in Rl, Ri, Rt, Ry, Rx, Rs. fold n in Rl, Ri, Rt, Ry, Rx, Rs.
  fold run in Rl, Ri, Rt, Ry, Rx, Rs.
  set (arrs := map (masked_band V gt_1e20 eqv) (bands ds)) in *.
  assert (Ha : length arrs = n) by apply length_map.
  rewrite Rl, Ri, Rt, Ry, Rx, Rs. split.
  - destruct (Nat.lt_ge_cases n 4) as [Hn | Hn].
    + destruct (draw_supported V n lt [basename lt] arrs Hn)
        as [rest [[_ Hr] E]].
      rewrite E. cbn [snd].
      split; [intros X; now apply Hr in X | lia].
    + rewrite (draw_unsupported V n lt [basename lt] arrs Hn). cbn [snd].
      tauto.
  - intros Hn. exact (draw_outcome n lt arrs Hn Ha).
Qed.

(** C9, amended: the band loop gives one array per band, with the
    pixels read from the band and a mask set exactly where the pixel
    exceeds 1e20 or equals the band's no-data value; when the no-data
    query raises, the mask is set exactly where the pixel exceeds 1e20,
    the message is printed and the loop goes on: the run ends as it
    does on the bands with the failing queries answered by no value,
    and draws the same.  What follows the loop depends on the number of
    bands.  With one to three the function asks for the grid of one
    row and one column per band and draws these arrays, each on the
    axis of its band and nothing else: the first in any case, and all
    of them in a run that ends normally.  With four or more it asks for
    no grid and draws nothing: the run ends in 'Number of bands
    currently unsupported'. *)
Theorem plot_layer_masks_and_draws gdal_Open path_layer lay_type ds :
  gdal_Open path_layer = Some ds ->
  let run := plot_layer V gt_1e20 eqv gdal_Open path_layer lay_type in
  let answered :=
    plot_layer V gt_1e20 eqv (fun _ => Some (without_failures V ds))
               path_layer lay_type in
  let n := RasterCount V ds in
  exists lst_arrs,
    snd (read_bands V gt_1e20 eqv ds) = inr lst_arrs
    /\ length lst_arrs = n
    /\ (forall k b,
          nth_error (bands ds) k = Some b ->
          exists arr,
            nth_error lst_arrs k = Some arr
            /\ data arr = ReadAsArray b
            /\ length (mask arr) = length (ReadAsArray b)
            /\ (forall j v,
                  nth_error (ReadAsArray b) j = Some v ->
                  nth_error (mask arr) j =
                  Some (gt_1e20 v
                        || match GetNoDataValue b with
                           | inr NoData => eq_nodata V eqv v NoData
                           | inl _ => false
                           end))
            /\ (forall e,
                  GetNoDataValue b = inl e ->
                  mask arr = map gt_1e20 (ReadAsArray b)
                  /\ In msg (fst (read_bands V gt_1e20 eqv ds))
                  /\ In msg (fst run)))
    /\ (let lt := layer_type path_layer lay_type in
        let d := draw V n lt [basename lt] lst_arrs in
        run = (fst (read_bands V gt_1e20 eqv ds) ++ Close V :: fst d, snd d))
    /\ snd run = snd answered
    /\ images V (fst run) = images V (fst answered)
    /\ (1 <= n <= 3 ->
        layout V (fst run) = [(1, n)]
        /\ (forall k arr,
              nth_error lst_arrs k = Some arr ->
              k = 0 \/ snd run = inr tt ->
              In (k, arr) (images V (fst run)))
        /\ (forall k arr,
              In (k, arr) (images V (fst run)) ->
              nth_error lst_arrs k = Some arr))
    /\ (4 <= n ->
        layout V (fst run) = [] /\ images V (fst run) = []
        /\ snd run = inl (Exception "Number of bands currently unsupported")).
Proof.
  intros H run answered n.
  set (arrs := map (masked_band V gt_1e20 eqv) (bands ds)).
  assert (Ha : length arrs = n) by apply length_map.
  set (lt := layer_type path_layer lay_type).
  pose proof (plot_layer_eq V gt_1e20 eqv gdal_Open path_layer lay_type ds H)
    as E.
  cbv zeta in E. fold lt run n arrs in E.
  destruct (run_observed gdal_Open path_layer lay_type ds H)
    as [Rl [Ri [_ [_ [_ Rs]]]]].
  fold lt run n arrs in Rl, Ri, Rs.
  assert (E' : answered =
               (Close V :: fst (draw V n lt [basename lt] arrs),
                snd (draw V n lt [basename lt] arrs))).
  { subst answered.
    rewrite (plot_layer_eq V gt_1e20 eqv _ path_layer lay_type
               (without_failures V ds) eq_refl).
    unfold without_failures, RasterCount. cbn [bands].
    rewrite length_map, map_map, band_events_assume.
    rewrite (map_ext _ _ (masked_band_assume V gt_1e20 eqv)).
    reflexivity. }
  exists arrs. rewrite read_bands_eq. cbn [fst snd].
  split; [reflexivity |]. split; [exact Ha |].
  split; [| split; [exact E |]].
  - intros k b Hk. exists (masked_band V gt_1e20 eqv b).
    split; [now apply map_nth_error |].
    destruct (masked_band_shape V gt_1e20 eqv b) as [Hd Hm].
    split; [exact Hd |]. split; [exact Hm |].
    split; [intros j v; apply masked_band_pixel |].
    intros e He.
    assert (Hin : In msg (flat_map (band_events V) (bands ds))).
    { apply in_flat_map. exists b.
      split; [eapply nth_error_In; eassumption |].
      unfold band_events. rewrite He. now left. }
    split; [unfold masked_band; now rewrite He |].
    split; [exact Hin |].
    rewrite E. cbn [fst]. apply in_or_app. now left.
  - split; [rewrite Rs, E'; reflexivity |].
    split; [rewrite Ri, E'; reflexivity |].
    rewrite Rl, Ri, Rs. split.
    + intros Hn.
      destruct (draw_outcome n lt arrs Hn Ha) as [Dl _].
      destruct (draw_images n lt arrs Hn Ha) as [Dall Donly].
      split; [exact Dl |]. split; [| exact Donly].
      intros k arr Hk [Hc | Hc]; apply Dall; auto. left. lia.
    + intros Hn. rewrite (draw_unsupported V n lt [basename lt] arrs Hn).
      repeat split; reflexivity.
Qed.

End Raster.
(** The two properties at the sample raster of three bands, the second
    with a failing no-data query: as a coherence layer, and as an
    ['ENU'] layer. *)

Lemma plot_layer_stops_at_second_title_witness :
  Sem.Sample.opening Sample.three_bands "figures/avgcoherence.vrt"
  = Some Sample.three_bands
  /\ let lt := layer_type "figures/avgcoherence.vrt" (Some "coherence") in
     let run := plot_layer Z Sem.Sample.gt_1e20 Z.eqb
                  (Sem.Sample.opening Sample.three_bands)
                  "figures/avgcoherence.vrt" (Some "coherence") in
     let n := RasterCount Z Sample.three_bands in
     (snd run = inl (Exception "Number of bands currently unsupported")
      <-> 4 <= n)
     /\ (1 <= n <= 3 ->
         layout Z (fst run) = [(1, n)]
         /\ (snd run = inr tt <-> n = 1 \/ lt = "ENU")
         /\ (snd run = inr tt -> map fst (images Z (fst run)) = seq 0 n)
         /\ (snd run <> inr tt ->
             snd run = inl IndexError
             /\ map fst (images Z (fst run)) = [0; 1]
             /\ titles Z (fst run) = [(0, basename lt)]
             /\ y_labels Z (fst run) = [] /\ x_labels Z (fst run) = [])).
Proof.
  split; [reflexivity |].
  apply (plot_layer_stops_at_second_title Z Sem.Sample.gt_1e20 Z.eqb
           (Sem.Sample.opening Sample.three_bands)).
  reflexivity.
Defined.

(** C9, as stated, fails: a fallback is not always followed by a plot.
    The second band of the sample raster of four bands has a failing
    no-data query, and the run draws nothing, this band included. *)
Lemma fallback_without_plot :
  ~ (forall (ds : Dataset Z) path_layer lay_type k b,
       nth_error (bands ds) k = Some b ->
       fails Z b = true ->
       In (k, Masked Z (ReadAsArray b)
                     (map Sem.Sample.gt_1e20 (ReadAsArray b)) None)
          (images Z (fst (plot_layer Z Sem.Sample.gt_1e20 Z.eqb
                            (Sem.Sample.opening ds) path_layer lay_type)))).
Proof.
  intros H.
  exact (H Sem.Sample.four_bands "figures/avgcoherence.vrt"
           (Some "coherence") 1 Sem.Sample.band_failing
           eq_refl eq_refl).
Qed.

Lemma plot_layer_masks_and_draws_witness :
  Sem.Sample.opening Sample.three_bands "figures/ENU.vrt"
  = Some Sample.three_bands
  /\ let run := plot_layer Z Sem.Sample.gt_1e20 Z.eqb
                  (Sem.Sample.opening Sample.three_bands)
                  "figures/ENU.vrt" (Some "ENU") in
     let answered :=
       plot_layer Z Sem.Sample.gt_1e20 Z.eqb
                  (fun _ => Some (without_failures Z Sample.three_bands))
                  "figures/ENU.vrt" (Some "ENU") in
     let n := RasterCount Z Sample.three_bands in
     exists lst_arrs,
       snd (read_bands Z Sem.Sample.gt_1e20 Z.eqb Sample.three_bands)
       = inr lst_arrs
       /\ length lst_arrs = n
       /\ (forall k b,
             nth_error (bands Sample.three_bands) k = Some b ->
             exists arr,
               nth_error lst_arrs k = Some arr
               /\ data arr = ReadAsArray b
               /\ length (mask arr) = length (ReadAsArray b)
               /\ (forall j v,
                     nth_error (ReadAsArray b) j = Some v ->
                     nth_error (mask arr) j =
                     Some (Sem.Sample.gt_1e20 v
                           || match GetNoDataValue b with
                              | inr NoData => eq_nodata Z Z.eqb v NoData
                              | inl _ => false
                              end))
               /\ (forall e,
                     GetNoDataValue b = inl e ->
                     mask arr = map Sem.Sample.gt_1e20 (ReadAsArray b)
                     /\ In (Printed Z "Could not find a no-data value...")
                           (fst (read_bands Z Sem.Sample.gt_1e20 Z.eqb
                                   Sample.three_bands))
                     /\ In (Printed Z "Could not find a no-data value...")
                           (fst run)))
       /\ (let lt := layer_type "figures/ENU.vrt" (Some "ENU") in
           let d := draw Z n lt [basename lt] lst_arrs in
           run = (fst (read_bands Z Sem.Sample.gt_1e20 Z.eqb
                         Sample.three_bands) ++ Close Z :: fst d, snd d))
       /\ snd run = snd answered
       /\ images Z (fst run) = images Z (fst answered)
       /\ (1 <= n <= 3 ->
           layout Z (fst run) = [(1, n)]
           /\ (forall k arr,
                 nth_error lst_arrs k = Some arr ->
                 k = 0 \/ snd run = inr tt ->
                 In (k, arr) (images Z (fst run)))
           /\ (forall k arr,
                 In (k, arr) (images Z (fst run)) ->
                 nth_error lst_arrs k = Some arr))
       /\ (4 <= n ->
           layout Z (fst run) = [] /\ images Z (fst run) = []
           /\ snd run =
              inl (Exception "Number of bands currently unsupported")).
Proof.
  split; [reflexivity |].
  apply (plot_layer_masks_and_draws Z Sem.Sample.gt_1e20 Z.eqb
           (Sem.Sample.opening Sample.three_bands)).
  reflexivity.
Defined.

(** The runs of the sample raster of three bands, evaluated. *)

Example plot_layer_three_bands_coherence :
  let run := plot_layer Z Sem.Sample.gt_1e20 Z.eqb
               (Sem.Sample.opening Sample.three_bands)
               "figures/avgcoherence.vrt" (Some "coherence") in
  snd run = inl IndexError
  /\ layout Z (fst run) = [(1, 3)]
  /\ map fst (images Z (fst run)) = [0; 1]
  /\ titles Z (fst run) = [(0, "coherence")].
Proof. repeat split; reflexivity. Qed.

Example plot_layer_three_bands_enu :
  let run := plot_layer Z Sem.Sample.gt_1e20 Z.eqb
               (Sem.Sample.opening Sample.three_bands)
               "figures/ENU.vrt" (Some "ENU") in
  snd run = inr tt
  /\ layout Z (fst run) = [(1, 3)]
  /\ filter (is_print Z) (fst run) =
     [Printed Z "Could not find a no-data value..."]
  /\ images Z (fst run) =
     [ (0, Masked Z Sem.Sample.pixels [false; true; false; true] None);
       (1, Masked Z Sem.Sample.pixels [false; false; false; true] None);
       (2, Masked Z Sem.Sample.pixels [false; true; false; true] None) ]
  /\ titles Z (fst run) = [(0, "East"); (1, "North"); (2, "Up")].
Proof. repeat split; reflexivity. Qed.

End PlotFacts.
